(** * Social Media Genius: platform registry and content validators

    A shallow embedding of [lib/social-platform-specs.ts] and
    [lib/social-validators.ts].

    Modelling conventions.
    - A JavaScript string is a [string]: a sequence of 8-bit code units.
      [toLowerCase] and [toUpperCase] act on the letters A-Z and a-z and
      leave every other code unit alone.
    - A [number] that is the length of a string or of an array, or a
      registry limit compared with such a length, is an integer ([Z]).
    - A [number] supplied by the caller of the image and video validators
      (pixel sizes, megabytes, seconds), and every registry constant such
      a number is compared with, is an IEEE 754 binary64 value ([float]),
      with the operations of the language: division, subtraction,
      [Math.abs], and comparisons that are false on NaN.
    - [Number.prototype.toString] and [Number.prototype.toFixed] on
      binary64 values are parameters of the development (the class
      [NumberFormat]): they only produce text interpolated into
      messages, and every theorem holds for every instance.
    - A property read through [PLATFORM_SPECS[key]] follows the prototype
      chain of the object literal, as the language does.
    - A call either returns a value or throws: [completion]. *)

From Stdlib Require Import ZArith QArith Qabs List Bool Lia.
From Stdlib Require Import Strings.Ascii Strings.String Numbers.DecimalString.
From Stdlib Require Import Floats.
Import ListNotations.

Set Warnings "-inexact-float".

Local Open Scope string_scope.
Local Open Scope Z_scope.

(* ===================================================================== *)
(** ** Language primitives *)
(* ===================================================================== *)

Module Js.

(** The double quote character, as a one-character string. *)
Definition dquote : string := String (ascii_of_nat 34) EmptyString.

Definition lower_ascii (c : ascii) : ascii :=
  let n := N_of_ascii c in
  if ((65 <=? n) && (n <=? 90))%N then ascii_of_N (n + 32) else c.

Definition upper_ascii (c : ascii) : ascii :=
  let n := N_of_ascii c in
  if ((97 <=? n) && (n <=? 122))%N then ascii_of_N (n - 32) else c.

(** [String.prototype.toLowerCase] *)
Fixpoint toLowerCase (s : string) : string :=
  match s with
  | EmptyString => EmptyString
  | String c r => String (lower_ascii c) (toLowerCase r)
  end.

(** [String.prototype.toUpperCase] *)
Fixpoint toUpperCase (s : string) : string :=
  match s with
  | EmptyString => EmptyString
  | String c r => String (upper_ascii c) (toUpperCase r)
  end.

(** [s.length] *)
Definition length (s : string) : Z := Z.of_nat (String.length s).

(** [`${n}`] for an integer [n]. *)
Definition showZ (n : Z) : string := NilZero.string_of_int (Z.to_int n).

(** [s.startsWith(p)] *)
Fixpoint startsWith (p s : string) : bool :=
  match p, s with
  | EmptyString, _ => true
  | String a p', String b s' => Ascii.eqb a b && startsWith p' s'
  | String _ _, EmptyString => false
  end.

(** The rest of [s] after its first [n] code units. *)
Fixpoint drop (n : nat) (s : string) : string :=
  match n, s with
  | O, _ => s
  | S n', String _ r => drop n' r
  | S _, EmptyString => EmptyString
  end.

(** [s.includes(p)]: [p] occurs somewhere in [s]. *)
Fixpoint includes (p s : string) : bool :=
  startsWith p s ||
  match s with
  | EmptyString => false
  | String _ r => includes p r
  end.

(** [s.replace(pat, rep)] for a string pattern: the first occurrence of
    [pat] is replaced ([rep] holds no dollar sign at the call sites). *)
Fixpoint replace (pat rep s : string) : string :=
  if startsWith pat s then rep ++ drop (String.length pat) s
  else match s with
       | EmptyString => EmptyString
       | String c r => String c (replace pat rep r)
       end.

(** [s.replace(/^#/, '')]: one leading hash sign is removed. *)
Definition stripLeadingHash (s : string) : string :=
  match s with
  | String c r => if Ascii.eqb c "#"%char then r else s
  | EmptyString => EmptyString
  end.

(** [xs.includes(x)] on an array of strings. *)
Fixpoint arrayIncludes (xs : list string) (x : string) : bool :=
  match xs with
  | [] => false
  | y :: ys => String.eqb y x || arrayIncludes ys x
  end.

(** [xs.join(sep)] *)
Fixpoint join (sep : string) (xs : list string) : string :=
  match xs with
  | [] => EmptyString
  | [x] => x
  | x :: ys => x ++ sep ++ join sep ys
  end.

(** [xs.find(p)]: the first element that satisfies [p], if any. *)
Fixpoint find {A} (p : A -> bool) (xs : list A) : option A :=
  match xs with
  | [] => None
  | x :: r => if p x then Some x else find p r
  end.

(** [a > b] and [a < b] on binary64 values: false as soon as one side
    is NaN. *)
Definition gt (a b : float) : bool := PrimFloat.ltb b a.
Definition lt (a b : float) : bool := PrimFloat.ltb a b.

(** [Math.min(...xs)]: [Infinity] for no argument, NaN as soon as one
    argument is NaN, and the negative zero below the positive one. *)
Definition min2 (a b : float) : float :=
  if PrimFloat.is_nan a then a
  else if PrimFloat.is_nan b then b
  else if PrimFloat.ltb b a then b
  else if PrimFloat.ltb a b then a
  else if PrimFloat.get_sign b then b else a.

Definition mathMin (xs : list float) : float :=
  fold_left min2 xs PrimFloat.infinity.

(** What a call produces: a value, or a thrown [TypeError] that names
    the property read from [undefined]. *)
Inductive error : Type :=
| TypeError (property : string).

Inductive completion (A : Type) : Type :=
| Normal (a : A)
| Throw (e : error).
Arguments Normal {A} a.
Arguments Throw {A} e.

Definition bind {A B} (c : completion A) (k : A -> completion B)
  : completion B :=
  match c with
  | Normal a => k a
  | Throw e => Throw e
  end.

End Js.

Notation "x <- c ;; k" := (Js.bind c (fun x => k))
  (at level 61, c at next level, right associativity).

(* ===================================================================== *)
(** ** The platform specification registry (social-platform-specs.ts) *)
(* ===================================================================== *)

Module MediaDimension.
Record t : Type := {
  name : string;
  width : float;
  height : float;
  aspectRatio : string
}.
End MediaDimension.

Module Text.
Record t : Type := {
  maxChars : Z;
  sweetSpot : option Z  (* optimal length for engagement *)
}.
End Text.

Module Images.
Record t : Type := {
  formats : list string;
  maxSizeMB : float;
  dimensions : list MediaDimension.t
}.
End Images.

Module Videos.
Record t : Type := {
  formats : list string;
  maxSizeMB : float;
  maxDurationSeconds : float;
  dimensions : list MediaDimension.t
}.
End Videos.

Module Hashtags.
Record t : Type := {
  max : Z;
  recommended : Z
}.
End Hashtags.

Module OpenGraph.
Record t : Type := {
  required : bool;
  imageSize : string
}.
End OpenGraph.

Module PlatformSpec.
Record t : Type := {
  name : string;
  text : Text.t;
  images : Images.t;
  videos : Videos.t;
  hashtags : Hashtags.t;
  openGraph : option OpenGraph.t
}.
End PlatformSpec.

Definition dim (n : string) (w h : float) (r : string) : MediaDimension.t :=
  {| MediaDimension.name := n;
     MediaDimension.width := w;
     MediaDimension.height := h;
     MediaDimension.aspectRatio := r |}.

Definition instagram : PlatformSpec.t := {|
  PlatformSpec.name := "Instagram";
  PlatformSpec.text := {| Text.maxChars := 2200; Text.sweetSpot := Some 125 |};
  PlatformSpec.images := {|
    Images.formats := ["JPG"; "PNG"];
    Images.maxSizeMB := 15%float;
    Images.dimensions := [
      dim "Square" 1080 1080 "1:1";
      dim "Portrait" 1080 1350 "4:5";
      dim "Story/Reel" 1080 1920 "9:16" ] |};
  PlatformSpec.videos := {|
    Videos.formats := ["MP4"; "MOV"];
    Videos.maxSizeMB := 15%float;
    Videos.maxDurationSeconds := 900%float;
    Videos.dimensions := [
      dim "Story" 1080 1920 "9:16";
      dim "Reel" 1080 1920 "9:16" ] |};
  PlatformSpec.hashtags := {| Hashtags.max := 5; Hashtags.recommended := 3 |};
  PlatformSpec.openGraph := None |}.

Definition twitter : PlatformSpec.t := {|
  PlatformSpec.name := "X (Twitter)";
  PlatformSpec.text := {| Text.maxChars := 280; Text.sweetSpot := None |};
  PlatformSpec.images := {|
    Images.formats := ["JPG"; "PNG"; "GIF"];
    Images.maxSizeMB := 5%float;
    Images.dimensions := [ dim "Standard" 1200 675 "16:9" ] |};
  PlatformSpec.videos := {|
    Videos.formats := ["MP4"; "MOV"];
    Videos.maxSizeMB := 512%float;
    Videos.maxDurationSeconds := 140%float;
    Videos.dimensions := [
      dim "Landscape" 1280 720 "16:9";
      dim "Portrait" 720 1280 "9:16" ] |};
  PlatformSpec.hashtags := {| Hashtags.max := 999; Hashtags.recommended := 2 |};
  PlatformSpec.openGraph := None |}.

Definition facebook : PlatformSpec.t := {|
  PlatformSpec.name := "Facebook";
  PlatformSpec.text := {| Text.maxChars := 63206; Text.sweetSpot := Some 80 |};
  PlatformSpec.images := {|
    Images.formats := ["JPG"; "PNG"];
    Images.maxSizeMB := 30%float;
    Images.dimensions := [ dim "Standard" 1200 630 "1.91:1" ] |};
  PlatformSpec.videos := {|
    Videos.formats := ["MP4"];
    Videos.maxSizeMB := 4000%float;
    Videos.maxDurationSeconds := 14460%float;
    Videos.dimensions := [
      dim "Landscape" 1280 720 "16:9";
      dim "Portrait" 1080 1920 "9:16" ] |};
  PlatformSpec.hashtags := {| Hashtags.max := 999; Hashtags.recommended := 2 |};
  PlatformSpec.openGraph :=
    Some {| OpenGraph.required := true; OpenGraph.imageSize := "1200x630" |} |}.

Definition tiktok : PlatformSpec.t := {|
  PlatformSpec.name := "TikTok";
  PlatformSpec.text := {| Text.maxChars := 4000; Text.sweetSpot := None |};
  PlatformSpec.images := {|
    Images.formats := ["JPG"; "PNG"];
    Images.maxSizeMB := 50%float;
    Images.dimensions := [ dim "Story Carousel" 1080 1920 "9:16" ] |};
  PlatformSpec.videos := {|
    Videos.formats := ["MP4"; "MOV"];
    Videos.maxSizeMB := 50%float;
    Videos.maxDurationSeconds := 3600%float;
    Videos.dimensions := [ dim "Standard" 1080 1920 "9:16" ] |};
  PlatformSpec.hashtags := {| Hashtags.max := 30; Hashtags.recommended := 3 |};
  PlatformSpec.openGraph := None |}.

Definition linkedin : PlatformSpec.t := {|
  PlatformSpec.name := "LinkedIn";
  PlatformSpec.text := {| Text.maxChars := 3000; Text.sweetSpot := Some 1500 |};
  PlatformSpec.images := {|
    Images.formats := ["JPG"; "PNG"];
    Images.maxSizeMB := 10%float;
    Images.dimensions := [
      dim "Standard" 1200 627 "1.91:1";
      dim "Story" 1080 1920 "9:16" ] |};
  PlatformSpec.videos := {|
    Videos.formats := ["MP4"; "MOV"];
    Videos.maxSizeMB := 200%float;
    Videos.maxDurationSeconds := 600%float;
    Videos.dimensions := [ dim "Landscape" 1280 720 "16:9" ] |};
  PlatformSpec.hashtags := {| Hashtags.max := 999; Hashtags.recommended := 5 |};
  PlatformSpec.openGraph := None |}.

(** The own properties of the [PLATFORM_SPECS] object literal, in
    declaration order. *)
Definition PLATFORM_SPECS : list (string * PlatformSpec.t) :=
  [ ("instagram", instagram);
    ("twitter", twitter);
    ("facebook", facebook);
    ("tiktok", tiktok);
    ("linkedin", linkedin) ].

(** The property names of [Object.prototype], the prototype of every
    object literal. Each is bound to a function, or for [__proto__] to
    the prototype object itself: none of them is falsy. *)
Definition OBJECT_PROTOTYPE : list string :=
  [ "constructor"; "__defineGetter__"; "__defineSetter__"; "hasOwnProperty";
    "__lookupGetter__"; "__lookupSetter__"; "isPrototypeOf";
    "propertyIsEnumerable"; "toString"; "valueOf"; "__proto__";
    "toLocaleString" ].

(** What [PLATFORM_SPECS[key]] can evaluate to when it is not
    [undefined]. *)
Inductive property : Type :=
| Own (spec : PlatformSpec.t)   (* a registry entry *)
| Inherited (key : string).      (* a member of [Object.prototype] *)

Fixpoint ownProperty (key : string) (o : list (string * PlatformSpec.t))
  : option PlatformSpec.t :=
  match o with
  | [] => None
  | (k, v) :: r => if String.eqb k key then Some v else ownProperty key r
  end.

(** [PLATFORM_SPECS[key]]: the own property, else the one found on the
    prototype chain, else [undefined] ([None]). *)
Definition getProperty (key : string) : option property :=
  match ownProperty key PLATFORM_SPECS with
  | Some spec => Some (Own spec)
  | None =>
      if Js.arrayIncludes OBJECT_PROTOTYPE key then Some (Inherited key)
      else None
  end.

(** [getPlatformSpec(platform)]: [PLATFORM_SPECS[platform.toLowerCase()] || null],
    with [None] for [null]. *)
Definition getPlatformSpec (platform : string) : option property :=
  match getProperty (Js.toLowerCase platform) with
  | Some v => Some v
  | None => None
  end.

(** [getSupportedPlatforms()]: [Object.keys(PLATFORM_SPECS)]. *)
Definition getSupportedPlatforms : list string := map fst PLATFORM_SPECS.

(** [key in PLATFORM_SPECS]: own or inherited. *)
Definition hasProperty (key : string) : bool :=
  match getProperty key with Some _ => true | None => false end.

(** [isPlatformSupported(platform)] *)
Definition isPlatformSupported (platform : string) : bool :=
  hasProperty (Js.toLowerCase platform).

(** [getOptimalAspectRatio(platform)] and its two siblings read the first
    recommended dimension; on a member of [Object.prototype] the read of
    [spec.images] is [undefined] and the next read throws. *)
Definition firstDimension (what : string)
    (dims : PlatformSpec.t -> list MediaDimension.t) (platform : string)
  : Js.completion (option MediaDimension.t) :=
  match getPlatformSpec platform with
  | None => Js.Normal None
  | Some (Inherited _) => Js.Throw (Js.TypeError what)
  | Some (Own spec) => Js.Normal (List.hd_error (dims spec))
  end.

Definition getOptimalImageDimensions : string -> Js.completion (option MediaDimension.t) :=
  firstDimension "dimensions" (fun spec => Images.dimensions (PlatformSpec.images spec)).

Definition getOptimalVideoDimensions : string -> Js.completion (option MediaDimension.t) :=
  firstDimension "dimensions" (fun spec => Videos.dimensions (PlatformSpec.videos spec)).

Definition getOptimalAspectRatio (platform : string) : Js.completion (option string) :=
  d <- getOptimalImageDimensions platform ;;
  Js.Normal (option_map MediaDimension.aspectRatio d).

(* ===================================================================== *)
(** ** The content validators (social-validators.ts) *)
(* ===================================================================== *)

Module Stats.
(** The [stats] object: every key is optional. *)
Record t : Type := {
  charCount : option Z;
  charLimit : option Z;
  fileSizeMB : option float;
  maxSizeMB : option float;
  hashtagCount : option Z;
  hashtagLimit : option Z;
  width : option float;
  height : option float;
  durationSeconds : option float;
  maxDurationSeconds : option float
}.

(** [{}] *)
Definition empty : t :=
  {| charCount := None; charLimit := None; fileSizeMB := None;
     maxSizeMB := None; hashtagCount := None; hashtagLimit := None;
     width := None; height := None; durationSeconds := None;
     maxDurationSeconds := None |}.

(** One key of [{...a, ...b}]: the value of [b] when [b] has the key. *)
Definition over {A} (a b : option A) : option A :=
  match b with
  | Some v => Some v
  | None => a
  end.

(** [{...a, ...b}] *)
Definition spread (a b : t) : t :=
  {| charCount := over (charCount a) (charCount b);
     charLimit := over (charLimit a) (charLimit b);
     fileSizeMB := over (fileSizeMB a) (fileSizeMB b);
     maxSizeMB := over (maxSizeMB a) (maxSizeMB b);
     hashtagCount := over (hashtagCount a) (hashtagCount b);
     hashtagLimit := over (hashtagLimit a) (hashtagLimit b);
     width := over (width a) (width b);
     height := over (height a) (height b);
     durationSeconds := over (durationSeconds a) (durationSeconds b);
     maxDurationSeconds := over (maxDurationSeconds a) (maxDurationSeconds b) |}.

(** The keys of the object, and [st[key]] ([None] when absent). *)
Inductive key : Type :=
| CharCount | CharLimit | FileSizeMB | MaxSizeMB | HashtagCount
| HashtagLimit | Width | Height | DurationSeconds | MaxDurationSeconds.

Inductive value : Type :=
| Count (n : Z)
| Number (x : float).

Definition get (k : key) (st : t) : option value :=
  match k with
  | CharCount => option_map Count (charCount st)
  | CharLimit => option_map Count (charLimit st)
  | FileSizeMB => option_map Number (fileSizeMB st)
  | MaxSizeMB => option_map Number (maxSizeMB st)
  | HashtagCount => option_map Count (hashtagCount st)
  | HashtagLimit => option_map Count (hashtagLimit st)
  | Width => option_map Number (width st)
  | Height => option_map Number (height st)
  | DurationSeconds => option_map Number (durationSeconds st)
  | MaxDurationSeconds => option_map Number (maxDurationSeconds st)
  end.
End Stats.

Record ValidationResult : Type := {
  valid : bool;
  errors : list string;
  warnings : list string;
  stats : Stats.t
}.

(** The two local arrays every validator fills by [push]. *)
Record Diag : Type := {
  errs : list string;
  warns : list string
}.

Definition noDiag : Diag := {| errs := []; warns := [] |}.

Definition pushError (msg : string) (d : Diag) : Diag :=
  {| errs := errs d ++ [msg]; warns := warns d |}.

Definition pushWarning (msg : string) (d : Diag) : Diag :=
  {| errs := errs d; warns := warns d ++ [msg] |}.

(** [if (test) { ... }] around a push. *)
Definition when (test : bool) (body : Diag -> Diag) (d : Diag) : Diag :=
  if test then body d else d.

(** The closing [return { valid: errors.length === 0, errors, warnings, stats }]. *)
Definition result (d : Diag) (st : Stats.t) : ValidationResult :=
  {| valid := Nat.eqb (List.length (errs d)) 0;
     errors := errs d;
     warnings := warns d;
     stats := st |}.

(** The early return on a falsy [spec]. *)
Definition unknownPlatform (platform : string) : ValidationResult :=
  {| valid := false;
     errors := ["Unknown platform: " ++ platform];
     warnings := [];
     stats := Stats.empty |}.

(** *** validateTextContent *)

Definition charLimitError (spec : PlatformSpec.t) (charCount : Z) : string :=
  "Content exceeds " ++ PlatformSpec.name spec ++ " character limit ("
  ++ Js.showZ charCount ++ "/" ++ Js.showZ (Text.maxChars (PlatformSpec.text spec))
  ++ ")".

Definition sweetSpotWarning (spec : PlatformSpec.t) (charCount sweetSpot : Z)
  : string :=
  "Content exceeds optimal length for " ++ PlatformSpec.name spec ++ " ("
  ++ Js.showZ charCount ++ "/" ++ Js.showZ sweetSpot ++ " chars). "
  ++ "Consider keeping key message in first " ++ Js.showZ sweetSpot
  ++ " characters for better visibility.".

Definition shortContentWarning (charCount : Z) : string :=
  "Content is very short (" ++ Js.showZ charCount
  ++ " chars). Consider adding more context for better engagement.".

Definition validateTextContent (platform content : string)
  : Js.completion ValidationResult :=
  match getProperty (Js.toLowerCase platform) with
  | None => Js.Normal (unknownPlatform platform)
  | Some (Inherited _) =>
      (* [spec.text] is [undefined]; reading [maxChars] from it throws *)
      Js.Throw (Js.TypeError "maxChars")
  | Some (Own spec) =>
      let d := noDiag in
      let charCount := Js.length content in
      (* character limit *)
      let d := when (charCount >? Text.maxChars (PlatformSpec.text spec))
                 (pushError (charLimitError spec charCount)) d in
      (* sweet spot: [spec.text.sweetSpot && charCount > spec.text.sweetSpot] *)
      let d := match Text.sweetSpot (PlatformSpec.text spec) with
               | Some sweetSpot =>
                   when (negb (sweetSpot =? 0) && (charCount >? sweetSpot))
                     (pushWarning (sweetSpotWarning spec charCount sweetSpot)) d
               | None => d
               end in
      (* very short content *)
      let d := when ((charCount <? 10) && (charCount >? 0))
                 (pushWarning (shortContentWarning charCount)) d in
      Js.Normal (result d
        {| Stats.charCount := Some charCount;
           Stats.charLimit := Some (Text.maxChars (PlatformSpec.text spec));
           Stats.fileSizeMB := None; Stats.maxSizeMB := None;
           Stats.hashtagCount := None; Stats.hashtagLimit := None;
           Stats.width := None; Stats.height := None;
           Stats.durationSeconds := None; Stats.maxDurationSeconds := None |})
  end.

(** *** validateHashtags *)

Definition tooManyHashtagsError (spec : PlatformSpec.t) (count : Z) : string :=
  "Too many hashtags for " ++ PlatformSpec.name spec ++ " ("
  ++ Js.showZ count ++ "/" ++ Js.showZ (Hashtags.max (PlatformSpec.hashtags spec))
  ++ ")".

Definition overRecommendedWarning (spec : PlatformSpec.t) (count : Z) : string :=
  "More hashtags than recommended for " ++ PlatformSpec.name spec ++ ". "
  ++ "Recommended: "
  ++ Js.showZ (Hashtags.recommended (PlatformSpec.hashtags spec))
  ++ ", Current: " ++ Js.showZ count ++ ". "
  ++ "Research shows fewer, more targeted hashtags often perform better.".

Definition emptyHashtagError (index : Z) : string :=
  "Hashtag " ++ Js.showZ (index + 1) ++ " is empty".

Definition spacesError (tag : string) : string :=
  "Hashtag " ++ Js.dquote ++ tag ++ Js.dquote ++ " contains spaces (invalid)".

Definition longHashtagWarning (tag : string) (len : Z) : string :=
  "Hashtag " ++ Js.dquote ++ tag ++ Js.dquote ++ " is very long ("
  ++ Js.showZ len ++ " chars). "
  ++ "Consider using shorter, more memorable tags.".

Definition noHashtagsWarning (spec : PlatformSpec.t) : string :=
  "No hashtags provided. Hashtags can significantly improve discoverability on "
  ++ PlatformSpec.name spec ++ ".".

(** The body of the [forEach] callback, for one tag and its index. *)
Definition checkHashtag (tag : string) (index : Z) (d : Diag) : Diag :=
  let cleanTag := Js.stripLeadingHash tag in
  let d := when (Js.length cleanTag =? 0) (pushError (emptyHashtagError index)) d in
  let d := when (Js.includes " " cleanTag) (pushError (spacesError tag)) d in
  let d := when (Js.length cleanTag >? 30)
             (pushWarning (longHashtagWarning tag (Js.length cleanTag))) d in
  d.

(** [hashtags.forEach((tag, index) => ...)], from index [index] on. *)
Fixpoint forEachHashtag (hashtags : list string) (index : Z) (d : Diag) : Diag :=
  match hashtags with
  | [] => d
  | tag :: rest => forEachHashtag rest (index + 1) (checkHashtag tag index d)
  end.

Definition validateHashtags (platform : string) (hashtags : list string)
  : Js.completion ValidationResult :=
  match getProperty (Js.toLowerCase platform) with
  | None => Js.Normal (unknownPlatform platform)
  | Some (Inherited _) =>
      (* [spec.hashtags] is [undefined]; reading [max] from it throws *)
      Js.Throw (Js.TypeError "max")
  | Some (Own spec) =>
      let d := noDiag in
      let count := Z.of_nat (List.length hashtags) in
      (* count limit *)
      let d := when (count >? Hashtags.max (PlatformSpec.hashtags spec))
                 (pushError (tooManyHashtagsError spec count)) d in
      (* recommended count *)
      let d := when (count >? Hashtags.recommended (PlatformSpec.hashtags spec))
                 (pushWarning (overRecommendedWarning spec count)) d in
      (* individual hashtags *)
      let d := forEachHashtag hashtags 0 d in
      (* no hashtags where they are valuable *)
      let d := when ((count =? 0) &&
                     Js.arrayIncludes ["instagram"; "tiktok"; "twitter"]
                       (Js.toLowerCase platform))
                 (pushWarning (noHashtagsWarning spec)) d in
      Js.Normal (result d
        {| Stats.charCount := None; Stats.charLimit := None;
           Stats.fileSizeMB := None; Stats.maxSizeMB := None;
           Stats.hashtagCount := Some count;
           Stats.hashtagLimit := Some (Hashtags.max (PlatformSpec.hashtags spec));
           Stats.width := None; Stats.height := None;
           Stats.durationSeconds := None; Stats.maxDurationSeconds := None |})
  end.

(** *** validatePost *)

Definition validatePost (platform content : string) (hashtags : list string)
  : Js.completion ValidationResult :=
  textResult <- validateTextContent platform content ;;
  hashtagResult <- validateHashtags platform hashtags ;;
  Js.Normal
    {| valid := valid textResult && valid hashtagResult;
       errors := errors textResult ++ errors hashtagResult;
       warnings := warnings textResult ++ warnings hashtagResult;
       stats := Stats.spread (stats textResult) (stats hashtagResult) |}.

(** *** validateImage and validateVideo *)

(** The aspect-ratio tolerance: the binary64 value of the literal [0.05]. *)
Definition ASPECT_TOLERANCE : float := 0.05%float.

(** The callback of [dimensions.find]:
    [Math.abs(aspectRatio - dim.width / dim.height) < 0.05]. *)
Definition ratioMatches (aspectRatio : float) (dim : MediaDimension.t) : bool :=
  let dimRatio := (MediaDimension.width dim / MediaDimension.height dim)%float in
  Js.lt (PrimFloat.abs (aspectRatio - dimRatio)%float) ASPECT_TOLERANCE.

(** [dimensions.map(d => `${d.name} (${d.aspectRatio})`).join(', ')] *)
Definition recommendedRatios (dims : list MediaDimension.t) : string :=
  Js.join ", "
    (map (fun d => MediaDimension.name d ++ " (" ++ MediaDimension.aspectRatio d ++ ")")
       dims).

(** [`${x}`] and [x.toFixed(digits)] on a binary64 value: the two
    formatting operations the messages of the media validators use. *)
Class NumberFormat : Type := {
  numberToString : float -> string;
  toFixed : float -> Z -> string
}.

Section MediaValidators.

Context {fmt : NumberFormat}.

Definition imageFormatError (spec : PlatformSpec.t) : string :=
  "Invalid image format for " ++ PlatformSpec.name spec ++ ". "
  ++ "Supported formats: "
  ++ Js.join ", " (Images.formats (PlatformSpec.images spec)).

Definition imageSizeError (spec : PlatformSpec.t) (fileSizeMB : float) : string :=
  "Image size exceeds " ++ PlatformSpec.name spec ++ " limit "
  ++ "(" ++ toFixed fileSizeMB 2 ++ "MB / "
  ++ numberToString (Images.maxSizeMB (PlatformSpec.images spec)) ++ "MB)".

Definition imageAspectWarning (spec : PlatformSpec.t) (width height : float)
  : string :=
  "Image aspect ratio (" ++ numberToString width ++ "x" ++ numberToString height
  ++ ") doesn't match "
  ++ "recommended dimensions for " ++ PlatformSpec.name spec ++ ". "
  ++ "Recommended: "
  ++ recommendedRatios (Images.dimensions (PlatformSpec.images spec)) ++ ". "
  ++ "Your image may be cropped or not display optimally.".

Definition smallWidthWarning (spec : PlatformSpec.t)
    (width minRecommendedWidth : float) : string :=
  "Image width (" ++ numberToString width ++ "px) is quite small. "
  ++ "Recommended minimum: " ++ numberToString minRecommendedWidth
  ++ "px for best quality on " ++ PlatformSpec.name spec ++ ".".

Definition validateImage (platform : string)
    (width height fileSizeMB : float) (format : string)
  : Js.completion ValidationResult :=
  match getProperty (Js.toLowerCase platform) with
  | None => Js.Normal (unknownPlatform platform)
  | Some (Inherited _) =>
      (* [spec.images] is [undefined]; reading [formats] from it throws *)
      Js.Throw (Js.TypeError "formats")
  | Some (Own spec) =>
      let images := PlatformSpec.images spec in
      let d := noDiag in
      (* format *)
      let normalizedFormat := Js.replace "JPEG" "JPG" (Js.toUpperCase format) in
      let d := when (negb (Js.arrayIncludes (Images.formats images) normalizedFormat))
                 (pushError (imageFormatError spec)) d in
      (* file size *)
      let d := when (Js.gt fileSizeMB (Images.maxSizeMB images))
                 (pushError (imageSizeError spec fileSizeMB)) d in
      (* dimensions and aspect ratio *)
      let aspectRatio := (width / height)%float in
      let matchingDimension :=
        Js.find (ratioMatches aspectRatio) (Images.dimensions images) in
      let d := match matchingDimension with
               | None => pushWarning (imageAspectWarning spec width height) d
               | Some _ => d
               end in
      (* dimensions too small *)
      let minRecommendedWidth :=
        Js.mathMin (map MediaDimension.width (Images.dimensions images)) in
      let d := when (Js.lt width (minRecommendedWidth * 0.5)%float)
                 (pushWarning (smallWidthWarning spec width minRecommendedWidth)) d in
      Js.Normal (result d
        {| Stats.charCount := None; Stats.charLimit := None;
           Stats.fileSizeMB := Some fileSizeMB;
           Stats.maxSizeMB := Some (Images.maxSizeMB images);
           Stats.hashtagCount := None; Stats.hashtagLimit := None;
           Stats.width := Some width; Stats.height := Some height;
           Stats.durationSeconds := None; Stats.maxDurationSeconds := None |})
  end.

Definition videoFormatError (spec : PlatformSpec.t) : string :=
  "Invalid video format for " ++ PlatformSpec.name spec ++ ". "
  ++ "Supported formats: "
  ++ Js.join ", " (Videos.formats (PlatformSpec.videos spec)).

Definition videoSizeError (spec : PlatformSpec.t) (fileSizeMB : float) : string :=
  "Video size exceeds " ++ PlatformSpec.name spec ++ " limit "
  ++ "(" ++ toFixed fileSizeMB 2 ++ "MB / "
  ++ numberToString (Videos.maxSizeMB (PlatformSpec.videos spec)) ++ "MB)".

Definition durationError (spec : PlatformSpec.t) (durationSeconds : float)
  : string :=
  "Video duration exceeds " ++ PlatformSpec.name spec ++ " limit "
  ++ "(" ++ numberToString durationSeconds ++ "s / "
  ++ numberToString (Videos.maxDurationSeconds (PlatformSpec.videos spec))
  ++ "s)".

Definition shortVideoWarning (durationSeconds : float) : string :=
  "Video is very short (" ++ numberToString durationSeconds ++ "s). "
  ++ "Consider making it at least 3-5 seconds for better viewer experience.".

Definition videoAspectWarning (spec : PlatformSpec.t) (width height : float)
  : string :=
  "Video aspect ratio (" ++ numberToString width ++ "x" ++ numberToString height
  ++ ") doesn't match "
  ++ "recommended dimensions for " ++ PlatformSpec.name spec ++ ". "
  ++ "Recommended: "
  ++ recommendedRatios (Videos.dimensions (PlatformSpec.videos spec)) ++ ". "
  ++ "Your video may be cropped or pillarboxed.".

Definition reelsWarning : string :=
  "Video is longer than 90 seconds. For Instagram, in-app recorded Reels are limited to 90s. "
  ++ "Uploaded videos can be up to 15 minutes but shorter content often performs better.".

Definition tiktokLengthWarning : string :=
  "Video is longer than 60 seconds. While TikTok supports up to 60 minutes, "
  ++ "shorter content (15-60s) typically gets better engagement.".

Definition validateVideo (platform : string)
    (width height durationSeconds fileSizeMB : float) (format : string)
  : Js.completion ValidationResult :=
  match getProperty (Js.toLowerCase platform) with
  | None => Js.Normal (unknownPlatform platform)
  | Some (Inherited _) =>
      (* [spec.videos] is [undefined]; reading [formats] from it throws *)
      Js.Throw (Js.TypeError "formats")
  | Some (Own spec) =>
      let videos := PlatformSpec.videos spec in
      let d := noDiag in
      (* format *)
      let normalizedFormat := Js.toUpperCase format in
      let d := when (negb (Js.arrayIncludes (Videos.formats videos) normalizedFormat))
                 (pushError (videoFormatError spec)) d in
      (* file size *)
      let d := when (Js.gt fileSizeMB (Videos.maxSizeMB videos))
                 (pushError (videoSizeError spec fileSizeMB)) d in
      (* duration *)
      let d := when (Js.gt durationSeconds (Videos.maxDurationSeconds videos))
                 (pushError (durationError spec durationSeconds)) d in
      (* very short video *)
      let d := when (Js.lt durationSeconds 3)
                 (pushWarning (shortVideoWarning durationSeconds)) d in
      (* dimensions and aspect ratio *)
      let aspectRatio := (width / height)%float in
      let matchingDimension :=
        Js.find (ratioMatches aspectRatio) (Videos.dimensions videos) in
      let d := match matchingDimension with
               | None => pushWarning (videoAspectWarning spec width height) d
               | Some _ => d
               end in
      (* platform-specific warnings *)
      let d := when (String.eqb (Js.toLowerCase platform) "instagram"
                     && Js.gt durationSeconds 90)
                 (pushWarning reelsWarning) d in
      let d := when (String.eqb (Js.toLowerCase platform) "tiktok"
                     && Js.gt durationSeconds 60)
                 (pushWarning tiktokLengthWarning) d in
      Js.Normal (result d
        {| Stats.charCount := None; Stats.charLimit := None;
           Stats.fileSizeMB := Some fileSizeMB;
           Stats.maxSizeMB := Some (Videos.maxSizeMB videos);
           Stats.hashtagCount := None; Stats.hashtagLimit := None;
           Stats.width := Some width; Stats.height := Some height;
           Stats.durationSeconds := Some durationSeconds;
           Stats.maxDurationSeconds := Some (Videos.maxDurationSeconds videos) |})
  end.

End MediaValidators.

(** *** The results the five entry points return *)

Section Returned.

Context {fmt : NumberFormat}.

(** [Returned r]: some call of one of the five validators returns [r]. *)
Inductive Returned (r : ValidationResult) : Prop :=
| returned_text platform content :
    validateTextContent platform content = Js.Normal r -> Returned r
| returned_hashtags platform hashtags :
    validateHashtags platform hashtags = Js.Normal r -> Returned r
| returned_image platform width height fileSizeMB format :
    validateImage platform width height fileSizeMB format
      = Js.Normal r -> Returned r
| returned_video platform width height durationSeconds fileSizeMB format :
    validateVideo platform width height durationSeconds
      fileSizeMB format = Js.Normal r -> Returned r
| returned_post platform content hashtags :
    validatePost platform content hashtags = Js.Normal r -> Returned r.

End Returned.

(** The invariant of a [ValidationResult]. *)
Definition flagMatchesErrors (r : ValidationResult) : Prop :=
  valid r = true <-> errors r = [].

(** A platform string is supported, with specification [spec], when its
    lower-case form is one of the five keys of the registry. *)
Definition supported (platform : string) (spec : PlatformSpec.t) : Prop :=
  ownProperty (Js.toLowerCase platform) PLATFORM_SPECS = Some spec.

(** The lower-case form of a platform string is no property of the
    registry object at all, own or inherited. *)
Definition notAProperty (platform : string) : Prop :=
  getProperty (Js.toLowerCase platform) = None.

(** *** The messages of the per-hashtag checks, as lists *)

(** The errors the [forEach] callback pushes for one tag. *)
Definition hashtagErrors (tag : string) (index : Z) : list string :=
  let cleanTag := Js.stripLeadingHash tag in
  ((if Js.length cleanTag =? 0 then [emptyHashtagError index] else [])
   ++ (if Js.includes " " cleanTag then [spacesError tag] else []))%list.

(** The warnings the [forEach] callback pushes for one tag. *)
Definition hashtagWarnings (tag : string) : list string :=
  let cleanTag := Js.stripLeadingHash tag in
  if Js.length cleanTag >? 30
  then [longHashtagWarning tag (Js.length cleanTag)] else [].

Fixpoint allHashtagErrors (hashtags : list string) (index : Z) : list string :=
  match hashtags with
  | [] => []
  | tag :: rest => (hashtagErrors tag index ++ allHashtagErrors rest (index + 1))%list
  end.

Fixpoint allHashtagWarnings (hashtags : list string) : list string :=
  match hashtags with
  | [] => []
  | tag :: rest => (hashtagWarnings tag ++ allHashtagWarnings rest)%list
  end.

(** A tag passes the per-tag checks: once its leading hash sign is
    removed it is not empty and holds no space. *)
Definition wellFormedTag (tag : string) : Prop :=
  Js.stripLeadingHash tag <> EmptyString /\
  Js.includes " " (Js.stripLeadingHash tag) = false.

(** Two messages are the same up to the tag they echo: they are equal,
    or the second is the first with a hash sign in front of the quoted
    tag. *)
Inductive sameUpToTag : string -> string -> Prop :=
| same_message m : sameUpToTag m m
| same_but_hash pre tag post :
    sameUpToTag (pre ++ Js.dquote ++ tag ++ Js.dquote ++ post)
                (pre ++ Js.dquote ++ "#" ++ tag ++ Js.dquote ++ post).

(** [tags.map(t => '#' + t)] *)
Definition withHash (tags : list string) : list string :=
  map (fun t => "#" ++ t) tags.

(** *** Exact values, for comparison with the computed ones *)

(** The rational number a finite binary64 value stands for. *)
Definition exactValue (x : float) : option Q :=
  match Prim2SF x with
  | S754_zero _ => Some 0%Q
  | S754_finite s m e =>
      Some ((if s then -1 else 1) * inject_Z (Z.pos m) * Qpower 2 e)%Q
  | S754_infinity _ | S754_nan => None
  end.

(** The distance between the ratio of an asset and the ratio of a
    recommended entry, computed without rounding. *)
Definition exactRatioDistance (width height : float) (dim : MediaDimension.t)
  : option Q :=
  match exactValue width, exactValue height,
        exactValue (MediaDimension.width dim),
        exactValue (MediaDimension.height dim) with
  | Some w, Some h, Some dw, Some dh => Some (Qabs (w / h - dw / dh))%Q
  | _, _, _, _ => None
  end.

(** *** Inputs and parameters of the closed examples *)

(** A string of [n] copies of the letter A. *)
Definition manyA (n : nat) : string :=
  string_of_list_ascii (List.repeat "A"%char n).

(** [`${x}`] on a binary64 value that is an integer below 10^21, a zero,
    NaN or an infinity. The closed examples instantiate the formatting
    parameter with it, and pass such values only. *)
Definition showIntegral (x : float) : string :=
  match Prim2SF x with
  | S754_zero _ => "0"
  | S754_infinity s => if s then "-Infinity" else "Infinity"
  | S754_nan => "NaN"
  | S754_finite s m e =>
      (if s then "-" else EmptyString)
      ++ Js.showZ (if 0 <=? e then Z.pos m * 2 ^ e else Z.pos m / 2 ^ (- e))
  end.

(** [x.toFixed(digits)] on the same values: the integer, then a point
    and [digits] zeros when [digits] is positive. *)
Definition showIntegralFixed (x : float) (digits : Z) : string :=
  showIntegral x
  ++ (if digits <=? 0 then EmptyString
      else "." ++ string_of_list_ascii (List.repeat "0"%char (Z.to_nat digits))).

Definition integralFormat : NumberFormat :=
  {| numberToString := showIntegral; toFixed := showIntegralFixed |}.

(* ===================================================================== *)
(** ** The generation services and the validation route *)
(* ===================================================================== *)

(** What [o[key]] can evaluate to on an object literal [o] when it is
    not [undefined]: the value of an own property, or the member of
    [Object.prototype] of that name. *)
Inductive member (A : Type) : Type :=
| OwnValue (a : A)
| InheritedValue (key : string).
Arguments OwnValue {A} a.
Arguments InheritedValue {A} key.

Fixpoint ownValue {A} (key : string) (o : list (string * A)) : option A :=
  match o with
  | [] => None
  | (k, v) :: r => if String.eqb k key then Some v else ownValue key r
  end.

(** [o[key]] on an object literal given by its own properties. *)
Definition objectGet {A} (o : list (string * A)) (key : string)
  : option (member A) :=
  match ownValue key o with
  | Some v => Some (OwnValue v)
  | None =>
      if Js.arrayIncludes OBJECT_PROTOTYPE key then Some (InheritedValue key)
      else None
  end.

(** White space, among the code units the model interprets: tab, line
    feed, vertical tab, form feed, carriage return and space. *)
Definition isWhiteSpace (c : ascii) : bool :=
  let n := N_of_ascii c in
  (((9 <=? n) && (n <=? 13)) || (n =? 32))%N.

Fixpoint trimStart (s : string) : string :=
  match s with
  | String c r => if isWhiteSpace c then trimStart r else s
  | EmptyString => EmptyString
  end.

Fixpoint trimEnd (s : string) : string :=
  match s with
  | EmptyString => EmptyString
  | String c r =>
      match trimEnd r with
      | EmptyString => if isWhiteSpace c then EmptyString else String c EmptyString
      | r' => String c r'
      end
  end.

(** [s.trim()] *)
Definition trim (s : string) : string := trimEnd (trimStart s).

(** *** ImagenService (lib/services/imagen-service.ts) *)

Module ImagenService.

Definition VALID_ASPECT_RATIOS : list string :=
  ["1:1"; "3:4"; "4:3"; "9:16"; "16:9"].

Definition DEFAULT_ASPECT_RATIO : string := "1:1".

Definition aspectRatioMap : list (string * string) :=
  [ ("instagram", "3:4");
    ("twitter", "16:9");
    ("facebook", "16:9");
    ("tiktok", "9:16");
    ("linkedin", "16:9") ].

(** [getPlatformAspectRatio(platform)]: every own value of the map is a
    non-empty string and every inherited member is truthy, so the
    default is taken only when the lookup is [undefined]. *)
Definition getPlatformAspectRatio (platform : string) : member string :=
  match getPlatformSpec platform with
  | None => OwnValue DEFAULT_ASPECT_RATIO
  | Some _ =>
      match objectGet aspectRatioMap (Js.toLowerCase platform) with
      | Some v => v
      | None => OwnValue DEFAULT_ASPECT_RATIO
      end
  end.

Definition fallbackMap : list (string * string) :=
  [ ("4:5", "3:4");
    ("5:4", "4:3");
    ("2:3", "3:4");
    ("3:2", "4:3");
    ("21:9", "16:9") ].

(** [validateAspectRatio(aspectRatio)]: the value returned (the two
    console messages are left out). *)
Definition validateAspectRatio (aspectRatio : string) : member string :=
  let normalized := trim aspectRatio in
  (* direct match *)
  if Js.arrayIncludes VALID_ASPECT_RATIOS normalized then OwnValue normalized
  else
    (* unsupported ratios go to the closest supported one *)
    match objectGet fallbackMap normalized with
    | Some fallback => fallback
    | None => OwnValue DEFAULT_ASPECT_RATIO
    end.

End ImagenService.

(** *** VeoService (the video generation service) *)

Module VeoService.

Record Settings : Type := {
  aspectRatio : string;
  duration : float
}.

Definition settingsMap : list (string * Settings) :=
  [ ("instagram", {| aspectRatio := "9:16"; duration := 60 |});
    ("twitter", {| aspectRatio := "16:9"; duration := 45 |});
    ("facebook", {| aspectRatio := "9:16"; duration := 60 |});
    ("tiktok", {| aspectRatio := "9:16"; duration := 30 |});
    ("linkedin", {| aspectRatio := "16:9"; duration := 90 |}) ].

(** [getPlatformVideoSettings(platform)] *)
Definition getPlatformVideoSettings (platform : string) : member Settings :=
  match objectGet settingsMap (Js.toLowerCase platform) with
  | Some v => v
  | None => OwnValue {| aspectRatio := "16:9"; duration := 30 |}
  end.

(** The object [validateForPlatform] resolves to. *)
Record Check : Type := {
  valid : bool;
  errors : list string
}.

Section Messages.

Context {fmt : NumberFormat}.

Definition sizeError (spec : PlatformSpec.t) (videoSizeMB : float) : string :=
  "Video size " ++ toFixed videoSizeMB 2 ++ " MB exceeds platform limit of "
  ++ numberToString (Videos.maxSizeMB (PlatformSpec.videos spec)) ++ " MB".

Definition durationError (spec : PlatformSpec.t) (durationSeconds : float)
  : string :=
  "Video duration " ++ numberToString durationSeconds
  ++ "s exceeds platform limit of "
  ++ numberToString (Videos.maxDurationSeconds (PlatformSpec.videos spec))
  ++ "s".

(** [validateForPlatform(videoSizeMB, durationSeconds, platform)]: the
    value the returned promise resolves to, or the error it rejects
    with. *)
Definition validateForPlatform (videoSizeMB durationSeconds : float)
    (platform : string) : Js.completion Check :=
  match getPlatformSpec platform with
  | None =>
      Js.Normal {| valid := false; errors := ["Unknown platform: " ++ platform] |}
  | Some (Inherited _) =>
      (* [platformSpec.videos] is [undefined]; reading [maxSizeMB] throws *)
      Js.Throw (Js.TypeError "maxSizeMB")
  | Some (Own platformSpec) =>
      let videos := PlatformSpec.videos platformSpec in
      let errors : list string := [] in
      (* size *)
      let errors :=
        if Js.gt videoSizeMB (Videos.maxSizeMB videos)
        then (errors ++ [sizeError platformSpec videoSizeMB])%list else errors in
      (* duration *)
      let errors :=
        if Js.gt durationSeconds (Videos.maxDurationSeconds videos)
        then (errors ++ [durationError platformSpec durationSeconds])%list
        else errors in
      Js.Normal {| valid := Nat.eqb (List.length errors) 0; errors := errors |}
  end.

End Messages.

End VeoService.

(** *** The validation route (the POST handler around validatePost) *)

Module ValidateRoute.




End ValidateRoute.

(** *** The hashtag overflow step of the generation route *)

(** [xs.slice(0, n)] for an integer [n] that is not negative. *)
Definition sliceFromStart {A} (xs : list A) (n : Z) : list A :=
  firstn (Z.to_nat n) xs.

(** The hashtags the generation route keeps, once it has a
    specification and the generated list: when their count exceeds
    [hashtags.max] the list is cut to its first [hashtags.max]
    entries. *)
Definition keptHashtags (platformSpec : PlatformSpec.t) (hashtags : list string)
  : list string :=
  let hashtagCount := Z.of_nat (List.length hashtags) in
  if hashtagCount >? Hashtags.max (PlatformSpec.hashtags platformSpec)
  then sliceFromStart hashtags (Hashtags.max (PlatformSpec.hashtags platformSpec))
  else hashtags.

(* ===================================================================== *)
(** ** Facts about the primitives and the registry *)
(* ===================================================================== *)

Lemma lower_ascii_idempotent (c : ascii) :
  Js.lower_ascii (Js.lower_ascii c) = Js.lower_ascii c.
Proof.
  destruct c as [[] [] [] [] [] [] [] []]; reflexivity.
Qed.

Lemma toLowerCase_idempotent (s : string) :
  Js.toLowerCase (Js.toLowerCase s) = Js.toLowerCase s.
Proof.
  induction s as [|c r IH]; simpl.
  - reflexivity.
  - now rewrite lower_ascii_idempotent, IH.
Qed.

Lemma supported_getProperty platform spec :
  supported platform spec ->
  getProperty (Js.toLowerCase platform) = Some (Own spec).
Proof.
  unfold supported, getProperty. now intros ->.
Qed.

Lemma getProperty_Own key spec :
  getProperty key = Some (Own spec) -> ownProperty key PLATFORM_SPECS = Some spec.
Proof.
  unfold getProperty.
  destruct (ownProperty key PLATFORM_SPECS) as [s|].
  - now intros [= ->].
  - destruct (Js.arrayIncludes OBJECT_PROTOTYPE key); discriminate.
Qed.

(** The registry has exactly five entries. *)
Lemma ownProperty_cases key spec :
  ownProperty key PLATFORM_SPECS = Some spec ->
  (key = "instagram" /\ spec = instagram) \/
  (key = "twitter" /\ spec = twitter) \/
  (key = "facebook" /\ spec = facebook) \/
  (key = "tiktok" /\ spec = tiktok) \/
  (key = "linkedin" /\ spec = linkedin).
Proof.
  unfold PLATFORM_SPECS; cbn [ownProperty].
  repeat (match goal with
          | |- context [String.eqb ?a ?b] =>
              destruct (String.eqb_spec a b) as [<-|_];
              [ intros [= <-]; tauto | ]
          end).
  discriminate.
Qed.

Lemma supported_cases platform spec :
  supported platform spec ->
  In spec [instagram; twitter; facebook; tiktok; linkedin].
Proof.
  intros H. apply ownProperty_cases in H. simpl.
  decompose [and or] H; subst; tauto.
Qed.

(** On every registry entry the recommended hashtag count is below the
    maximum, and a sweet spot, when there is one, is positive and within
    the character limit. *)
Lemma registry_limits spec :
  In spec [instagram; twitter; facebook; tiktok; linkedin] ->
  Hashtags.recommended (PlatformSpec.hashtags spec)
    < Hashtags.max (PlatformSpec.hashtags spec) /\
  0 < Text.maxChars (PlatformSpec.text spec) /\
  (forall s, Text.sweetSpot (PlatformSpec.text spec) = Some s ->
             0 < s <= Text.maxChars (PlatformSpec.text spec)).
Proof.
  simpl. intros H.
  decompose [or] H; subst; try contradiction; cbn;
    (split; [lia | split; [lia | intros s0 E; try discriminate E;
                                 injection E as <-; lia]]).
Qed.

(** *** The accumulators *)

Lemma result_valid d st :
  valid (result d st) = true <-> errors (result d st) = [].
Proof.
  unfold result; simpl. destruct (errs d); simpl; split; congruence.
Qed.

Lemma when_errs_pushWarning b msg d :
  errs (when b (pushWarning msg) d) = errs d.
Proof. now destruct b. Qed.

Lemma when_warns_pushError b msg d :
  warns (when b (pushError msg) d) = warns d.
Proof. now destruct b. Qed.

Lemma when_errs_pushError b msg d :
  errs (when b (pushError msg) d) = (errs d ++ (if b then [msg] else []))%list.
Proof. destruct b; simpl; now rewrite ?app_nil_r. Qed.

Lemma when_warns_pushWarning b msg d :
  warns (when b (pushWarning msg) d) = (warns d ++ (if b then [msg] else []))%list.
Proof. destruct b; simpl; now rewrite ?app_nil_r. Qed.

Create Rewrite HintDb diag.
#[local] Hint Rewrite when_errs_pushWarning when_warns_pushError
  when_errs_pushError when_warns_pushWarning : diag.

(* ===================================================================== *)
(** ** validateTextContent *)
(* ===================================================================== *)

(** What [validateTextContent] returns on a supported platform, check by
    check. *)
Lemma validateTextContent_supported platform spec content :
  supported platform spec ->
  let charCount := Js.length content in
  let maxChars := Text.maxChars (PlatformSpec.text spec) in
  exists r,
    validateTextContent platform content = Js.Normal r /\
    errors r = (if charCount >? maxChars
                then [charLimitError spec charCount] else []) /\
    valid r = negb (charCount >? maxChars) /\
    warnings r =
      ((match Text.sweetSpot (PlatformSpec.text spec) with
        | Some s => if negb (s =? 0) && (charCount >? s)
                    then [sweetSpotWarning spec charCount s] else []
        | None => []
        end) ++
       (if (charCount <? 10) && (charCount >? 0)
        then [shortContentWarning charCount] else []))%list /\
    Stats.charCount (stats r) = Some charCount /\
    Stats.charLimit (stats r) = Some maxChars.
Proof.
  intros Hs charCount maxChars.
  unfold validateTextContent.
  rewrite (supported_getProperty _ _ Hs).
  eexists; split; [reflexivity|].
  fold charCount maxChars.
  unfold result; cbn [valid errors warnings stats Stats.charCount Stats.charLimit].
  destruct (Text.sweetSpot (PlatformSpec.text spec)) as [s|];
    autorewrite with diag; cbn [errs warns noDiag app];
    destruct (charCount >? maxChars); cbn; auto.
Qed.

(** C2. On a supported platform, content within the character limit
    yields no error; content over the limit yields [valid = false], with
    [stats.charCount] the length of the content and [stats.charLimit]
    the limit of the platform. *)
Theorem validateTextContent_char_limit platform spec content :
  supported platform spec ->
  (Js.length content <= Text.maxChars (PlatformSpec.text spec) ->
   exists r, validateTextContent platform content = Js.Normal r /\
             errors r = []) /\
  (Js.length content > Text.maxChars (PlatformSpec.text spec) ->
   exists r, validateTextContent platform content = Js.Normal r /\
             valid r = false /\
             Stats.charCount (stats r) = Some (Js.length content) /\
             Stats.charLimit (stats r)
               = Some (Text.maxChars (PlatformSpec.text spec))).
Proof.
  intros Hs.
  destruct (validateTextContent_supported platform spec content Hs)
    as (r & Hr & He & Hv & _ & Hc & Hl).
  split; intros Hlen; exists r.
  - split; [exact Hr|]. rewrite He.
    destruct (Z.gtb_spec (Js.length content)
                (Text.maxChars (PlatformSpec.text spec))); [lia|reflexivity].
  - repeat split; try assumption. rewrite Hv.
    destruct (Z.gtb_spec (Js.length content)
                (Text.maxChars (PlatformSpec.text spec))); [reflexivity|lia].
Qed.

Lemma validateTextContent_char_limit_witness :
  (exists r, validateTextContent "Twitter" "hello world" = Js.Normal r /\
             errors r = []) /\
  (exists r, validateTextContent "twitter" (manyA 300) = Js.Normal r /\
             valid r = false /\
             Stats.charCount (stats r) = Some 300 /\
             Stats.charLimit (stats r) = Some 280).
Proof.
  split.
  - apply (validateTextContent_char_limit "Twitter" twitter "hello world").
    + reflexivity.
    + vm_compute. discriminate.
  - apply (validateTextContent_char_limit "twitter" twitter (manyA 300)).
    + reflexivity.
    + vm_compute. reflexivity.
Defined.

(** C10. On a supported platform the empty content is valid, with no
    error and no warning, and [stats] is [{charCount: 0, charLimit:
    maxChars}]. *)
Theorem validateTextContent_empty platform spec :
  supported platform spec ->
  validateTextContent platform EmptyString =
  Js.Normal
    {| valid := true;
       errors := [];
       warnings := [];
       stats :=
         {| Stats.charCount := Some 0;
            Stats.charLimit := Some (Text.maxChars (PlatformSpec.text spec));
            Stats.fileSizeMB := None; Stats.maxSizeMB := None;
            Stats.hashtagCount := None; Stats.hashtagLimit := None;
            Stats.width := None; Stats.height := None;
            Stats.durationSeconds := None;
            Stats.maxDurationSeconds := None |} |}.
Proof.
  intros Hs.
  destruct (registry_limits spec (supported_cases _ _ Hs)) as (_ & Hmax & Hsweet).
  unfold validateTextContent.
  rewrite (supported_getProperty _ _ Hs).
  cbv zeta. change (Js.length EmptyString) with 0.
  assert (Hgt : forall m, 0 < m -> (0 >? m) = false)
    by (intros m Hm; destruct (Z.gtb_spec 0 m); [lia|reflexivity]).
  rewrite (Hgt _ Hmax).
  destruct (Text.sweetSpot (PlatformSpec.text spec)) as [s|] eqn:Es.
  - rewrite (Hgt s) by (apply (Hsweet s eq_refl)).
    rewrite !andb_false_r. reflexivity.
  - reflexivity.
Qed.

Lemma validateTextContent_empty_witness :
  validateTextContent "LinkedIn" EmptyString =
  Js.Normal
    {| valid := true;
       errors := [];
       warnings := [];
       stats :=
         {| Stats.charCount := Some 0;
            Stats.charLimit := Some 3000;
            Stats.fileSizeMB := None; Stats.maxSizeMB := None;
            Stats.hashtagCount := None; Stats.hashtagLimit := None;
            Stats.width := None; Stats.height := None;
            Stats.durationSeconds := None;
            Stats.maxDurationSeconds := None |} |}.
Proof.
  apply (validateTextContent_empty "LinkedIn" linkedin). reflexivity.
Defined.

(* ===================================================================== *)
(** ** validateHashtags *)
(* ===================================================================== *)

Lemma checkHashtag_errs tag index d :
  errs (checkHashtag tag index d) = (errs d ++ hashtagErrors tag index)%list.
Proof.
  unfold checkHashtag, hashtagErrors. cbv zeta.
  autorewrite with diag. now rewrite app_assoc.
Qed.

Lemma checkHashtag_warns tag index d :
  warns (checkHashtag tag index d) = (warns d ++ hashtagWarnings tag)%list.
Proof.
  unfold checkHashtag, hashtagWarnings. cbv zeta.
  now autorewrite with diag.
Qed.

Lemma forEachHashtag_errs hashtags : forall index d,
  errs (forEachHashtag hashtags index d)
  = (errs d ++ allHashtagErrors hashtags index)%list.
Proof.
  induction hashtags as [|tag rest IH]; intros index d; simpl.
  - now rewrite app_nil_r.
  - now rewrite IH, checkHashtag_errs, app_assoc.
Qed.

Lemma forEachHashtag_warns hashtags : forall index d,
  warns (forEachHashtag hashtags index d)
  = (warns d ++ allHashtagWarnings hashtags)%list.
Proof.
  induction hashtags as [|tag rest IH]; intros index d; simpl.
  - now rewrite app_nil_r.
  - now rewrite IH, checkHashtag_warns, app_assoc.
Qed.

(** What [validateHashtags] returns on a supported platform, check by
    check. *)
Lemma validateHashtags_supported platform spec hashtags :
  supported platform spec ->
  let count := Z.of_nat (List.length hashtags) in
  exists r,
    validateHashtags platform hashtags = Js.Normal r /\
    errors r =
      ((if count >? Hashtags.max (PlatformSpec.hashtags spec)
        then [tooManyHashtagsError spec count] else [])
       ++ allHashtagErrors hashtags 0)%list /\
    warnings r =
      ((if count >? Hashtags.recommended (PlatformSpec.hashtags spec)
        then [overRecommendedWarning spec count] else [])
       ++ allHashtagWarnings hashtags
       ++ (if (count =? 0) &&
              Js.arrayIncludes ["instagram"; "tiktok"; "twitter"]
                (Js.toLowerCase platform)
           then [noHashtagsWarning spec] else []))%list /\
    valid r = Nat.eqb (List.length (errors r)) 0 /\
    Stats.hashtagCount (stats r) = Some count /\
    Stats.hashtagLimit (stats r)
      = Some (Hashtags.max (PlatformSpec.hashtags spec)).
Proof.
  intros Hs count.
  unfold validateHashtags.
  rewrite (supported_getProperty _ _ Hs).
  eexists; split; [reflexivity|].
  fold count. unfold result.
  cbn [valid errors warnings stats Stats.hashtagCount Stats.hashtagLimit].
  autorewrite with diag.
  rewrite forEachHashtag_errs, forEachHashtag_warns.
  autorewrite with diag. cbn [errs warns noDiag app].
  rewrite <- app_assoc. auto.
Qed.

Lemma allHashtagErrors_prefix hashtags : forall index m,
  In m (allHashtagErrors hashtags index) -> Js.startsWith "Hashtag " m = true.
Proof.
  induction hashtags as [|tag rest IH]; intros index m; simpl; [tauto|].
  rewrite in_app_iff. intros [H|H]; [|eauto].
  unfold hashtagErrors in H. cbv zeta in H. rewrite in_app_iff in H.
  destruct H as [H|H];
    [destruct (Js.length (Js.stripLeadingHash tag) =? 0)
    |destruct (Js.includes " " (Js.stripLeadingHash tag))];
    simpl in H; try contradiction; destruct H as [<-|[]]; reflexivity.
Qed.

Lemma allHashtagWarnings_prefix hashtags m :
  In m (allHashtagWarnings hashtags) -> Js.startsWith "Hashtag " m = true.
Proof.
  induction hashtags as [|tag rest IH]; simpl; [tauto|].
  rewrite in_app_iff. intros [H|H]; [|auto].
  unfold hashtagWarnings in H. cbv zeta in H.
  destruct (Js.length (Js.stripLeadingHash tag) >? 30);
    simpl in H; try contradiction; destruct H as [<-|[]]; reflexivity.
Qed.

(** C6. On a supported platform the over-limit error is emitted exactly
    when the count exceeds [hashtags.max], the over-recommended warning
    exactly when it exceeds [hashtags.recommended], and a count over the
    maximum produces both: the warning is not suppressed by the error. *)
Theorem validateHashtags_count_checks platform spec hashtags :
  supported platform spec ->
  let count := Z.of_nat (List.length hashtags) in
  exists r,
    validateHashtags platform hashtags = Js.Normal r /\
    (In (tooManyHashtagsError spec count) (errors r)
     <-> count > Hashtags.max (PlatformSpec.hashtags spec)) /\
    (In (overRecommendedWarning spec count) (warnings r)
     <-> count > Hashtags.recommended (PlatformSpec.hashtags spec)) /\
    (count > Hashtags.max (PlatformSpec.hashtags spec) ->
     In (tooManyHashtagsError spec count) (errors r) /\
     In (overRecommendedWarning spec count) (warnings r)).
Proof.
  intros Hs count.
  destruct (validateHashtags_supported platform spec hashtags Hs)
    as (r & Hr & He & Hw & _).
  fold count in He, Hw.
  destruct (registry_limits spec (supported_cases _ _ Hs)) as (Hrec & _).
  assert (E : In (tooManyHashtagsError spec count) (errors r)
              <-> count > Hashtags.max (PlatformSpec.hashtags spec)).
  { rewrite He, in_app_iff.
    destruct (Z.gtb_spec count (Hashtags.max (PlatformSpec.hashtags spec)))
      as [Hgt|Hle]; split; try lia; try (simpl; tauto).
    intros [[]|H]. apply allHashtagErrors_prefix in H. discriminate H. }
  assert (W : In (overRecommendedWarning spec count) (warnings r)
              <-> count > Hashtags.recommended (PlatformSpec.hashtags spec)).
  { rewrite Hw, !in_app_iff.
    destruct (Z.gtb_spec count (Hashtags.recommended (PlatformSpec.hashtags spec)))
      as [Hgt|Hle]; split; try lia; try (simpl; tauto).
    intros [[]|[H|H]].
    - apply allHashtagWarnings_prefix in H. discriminate H.
    - destruct (_ && _); simpl in H; [destruct H as [H|[]]|destruct H].
      discriminate H. }
  exists r. repeat split; try assumption; try apply E; try apply W; try lia.
Qed.

Lemma validateHashtags_count_checks_witness :
  exists r,
    validateHashtags "instagram" ["#a"; "#b"; "#c"; "#d"; "#e"; "#f"]
      = Js.Normal r /\
    In "Too many hashtags for Instagram (6/5)" (errors r) /\
    In (overRecommendedWarning instagram 6) (warnings r).
Proof.
  destruct (validateHashtags_count_checks "instagram" instagram
              ["#a"; "#b"; "#c"; "#d"; "#e"; "#f"] eq_refl)
    as (r & Hr & _ & _ & Hboth).
  exists r. split; [exact Hr|].
  apply Hboth. vm_compute. reflexivity.
Defined.

(** *** Tags with and without a leading hash sign *)

Lemma stripLeadingHash_without t :
  Js.startsWith "#" t = false -> Js.stripLeadingHash t = t.
Proof.
  destruct t as [|c r]; [reflexivity|].
  cbn [Js.startsWith Js.stripLeadingHash].
  rewrite andb_true_r, Ascii.eqb_sym. now intros ->.
Qed.

Lemma stripLeadingHash_with t : Js.stripLeadingHash ("#" ++ t) = t.
Proof. reflexivity. Qed.

Lemma Forall2_sameUpToTag_refl ms : Forall2 sameUpToTag ms ms.
Proof. induction ms; constructor; auto using same_message. Qed.

Lemma hashtagErrors_withHash t index :
  Js.startsWith "#" t = false ->
  Forall2 sameUpToTag (hashtagErrors t index) (hashtagErrors ("#" ++ t) index).
Proof.
  intros Ht. unfold hashtagErrors. cbv zeta.
  rewrite stripLeadingHash_with, (stripLeadingHash_without t Ht).
  apply Forall2_app.
  - apply Forall2_sameUpToTag_refl.
  - destruct (Js.includes " " t); constructor; [|constructor].
    apply (same_but_hash "Hashtag " t " contains spaces (invalid)").
Qed.

Lemma hashtagWarnings_withHash t :
  Js.startsWith "#" t = false ->
  Forall2 sameUpToTag (hashtagWarnings t) (hashtagWarnings ("#" ++ t)).
Proof.
  intros Ht. unfold hashtagWarnings. cbv zeta.
  rewrite stripLeadingHash_with, (stripLeadingHash_without t Ht).
  destruct (Js.length t >? 30); constructor; [|constructor].
  apply (same_but_hash "Hashtag " t
           (" is very long (" ++ Js.showZ (Js.length t) ++ " chars). "
            ++ "Consider using shorter, more memorable tags.")).
Qed.

Lemma allHashtagErrors_withHash tags :
  Forall (fun t => Js.startsWith "#" t = false) tags ->
  forall index,
    Forall2 sameUpToTag (allHashtagErrors tags index)
                        (allHashtagErrors (withHash tags) index).
Proof.
  induction 1 as [|t rest Ht _ IH]; intros index; simpl.
  - constructor.
  - apply Forall2_app; [now apply hashtagErrors_withHash | apply IH].
Qed.

Lemma allHashtagWarnings_withHash tags :
  Forall (fun t => Js.startsWith "#" t = false) tags ->
  Forall2 sameUpToTag (allHashtagWarnings tags)
                      (allHashtagWarnings (withHash tags)).
Proof.
  induction 1 as [|t rest Ht _ IH]; simpl.
  - constructor.
  - apply Forall2_app; [now apply hashtagWarnings_withHash | apply IH].
Qed.

(** C7. On a supported platform, for tags none of which begins with a
    hash sign, validating the tags and validating them with one hash
    sign in front of each gives the same [valid] flag, the same [stats],
    and errors and warnings that are pairwise the same up to the tag
    text they echo. *)
Theorem validateHashtags_leading_hash platform spec tags :
  supported platform spec ->
  Forall (fun t => Js.startsWith "#" t = false) tags ->
  exists r r',
    validateHashtags platform tags = Js.Normal r /\
    validateHashtags platform (withHash tags) = Js.Normal r' /\
    valid r = valid r' /\
    Forall2 sameUpToTag (errors r) (errors r') /\
    Forall2 sameUpToTag (warnings r) (warnings r') /\
    stats r = stats r'.
Proof.
  intros Hs Htags.
  destruct (validateHashtags_supported platform spec tags Hs)
    as (r & Hr & He & Hw & Hv & _).
  destruct (validateHashtags_supported platform spec (withHash tags) Hs)
    as (r' & Hr' & He' & Hw' & Hv' & _).
  assert (Hlen : List.length (withHash tags) = List.length tags)
    by apply length_map.
  rewrite Hlen in He', Hw'.
  assert (HE : Forall2 sameUpToTag (errors r) (errors r')).
  { rewrite He, He'. apply Forall2_app.
    - apply Forall2_sameUpToTag_refl.
    - now apply allHashtagErrors_withHash. }
  assert (HW : Forall2 sameUpToTag (warnings r) (warnings r')).
  { rewrite Hw, Hw'. repeat apply Forall2_app;
      try apply Forall2_sameUpToTag_refl.
    now apply allHashtagWarnings_withHash. }
  exists r, r'. repeat split; try assumption.
  - rewrite Hv, Hv'. now rewrite (Forall2_length HE).
  - unfold validateHashtags in Hr, Hr'.
    rewrite (supported_getProperty _ _ Hs) in Hr, Hr'.
    injection Hr as <-. injection Hr' as <-.
    unfold result; cbn [stats]. now rewrite Hlen.
Qed.

Lemma validateHashtags_leading_hash_witness :
  exists r r',
    validateHashtags "tiktok" ["a"; "b c"; EmptyString; manyA 31] = Js.Normal r /\
    validateHashtags "tiktok" ["#a"; "#b c"; "#"; "#" ++ manyA 31] = Js.Normal r' /\
    valid r = valid r' /\
    Forall2 sameUpToTag (errors r) (errors r') /\
    Forall2 sameUpToTag (warnings r) (warnings r') /\
    stats r = stats r'.
Proof.
  apply (validateHashtags_leading_hash "tiktok" tiktok
           ["a"; "b c"; EmptyString; manyA 31]).
  - reflexivity.
  - repeat constructor.
Defined.

(* ===================================================================== *)
(** ** validatePost *)
(* ===================================================================== *)

Lemma spread_get k a b :
  Stats.get k (Stats.spread a b)
  = match Stats.get k b with
    | Some v => Some v
    | None => Stats.get k a
    end.
Proof.
  destruct a, b, k; cbn;
    repeat match goal with
           | |- context [Stats.over _ ?o] => destruct o; cbn
           end; reflexivity.
Qed.

(** C4. Whenever the two sub-validators return, [validatePost] returns
    the conjunction of their [valid] flags, the text errors followed by
    the hashtag errors, the warnings likewise, and the merged [stats],
    where on every key the entry of the hashtag result wins. Nothing is
    cut short: the hashtag errors are there whatever the text result. *)
Theorem validatePost_composition platform content hashtags textResult hashtagResult :
  validateTextContent platform content = Js.Normal textResult ->
  validateHashtags platform hashtags = Js.Normal hashtagResult ->
  exists r,
    validatePost platform content hashtags = Js.Normal r /\
    valid r = valid textResult && valid hashtagResult /\
    errors r = (errors textResult ++ errors hashtagResult)%list /\
    warnings r = (warnings textResult ++ warnings hashtagResult)%list /\
    (forall k,
       Stats.get k (stats r)
       = match Stats.get k (stats hashtagResult) with
         | Some v => Some v
         | None => Stats.get k (stats textResult)
         end).
Proof.
  intros Ht Hh. unfold validatePost. rewrite Ht, Hh. cbn [Js.bind].
  eexists; split; [reflexivity|]. cbn [valid errors warnings stats].
  repeat split. intros k. apply spread_get.
Qed.

Lemma validatePost_composition_witness :
  exists r,
    validatePost "twitter" (manyA 300) ["two words"] = Js.Normal r /\
    valid r = false /\
    errors r = [ "Content exceeds X (Twitter) character limit (300/280)";
                 spacesError "two words" ].
Proof.
  destruct (validateTextContent_supported "twitter" twitter (manyA 300) eq_refl)
    as (t & Ht & Hte & Htv & _).
  destruct (validateHashtags_supported "twitter" twitter ["two words"] eq_refl)
    as (h & Hh & Hhe & _ & Hhv & _).
  destruct (validatePost_composition "twitter" (manyA 300) ["two words"] t h Ht Hh)
    as (r & Hr & Hv & He & _).
  exists r. split; [exact Hr|]. split.
  - rewrite Hv, Htv. reflexivity.
  - rewrite He, Hte, Hhe. reflexivity.
Defined.

(** When a sub-validator throws, so does [validatePost]. *)
Lemma validatePost_throws platform content hashtags e :
  validateTextContent platform content = Js.Throw e ->
  validatePost platform content hashtags = Js.Throw e.
Proof. intros H. unfold validatePost. now rewrite H. Qed.

(* ===================================================================== *)
(** ** Results of every entry point *)
(* ===================================================================== *)

Lemma unknownPlatform_flag platform : flagMatchesErrors (unknownPlatform platform).
Proof. split; discriminate. Qed.

(** Every validator but [validatePost] ends in one of two returns. *)
Ltac by_return H :=
  match type of H with
  | context [getProperty ?k] =>
      destruct (getProperty k) as [[spec|key]|];
      [ injection H as <-; apply result_valid
      | discriminate H
      | injection H as <-; apply unknownPlatform_flag ]
  end.

Lemma validateTextContent_flag platform content r :
  validateTextContent platform content = Js.Normal r -> flagMatchesErrors r.
Proof. unfold validateTextContent. intros H. by_return H. Qed.

Lemma validateHashtags_flag platform hashtags r :
  validateHashtags platform hashtags = Js.Normal r -> flagMatchesErrors r.
Proof. unfold validateHashtags. intros H. by_return H. Qed.

Lemma validatePost_flag platform content hashtags r :
  validatePost platform content hashtags = Js.Normal r -> flagMatchesErrors r.
Proof.
  unfold validatePost.
  destruct (validateTextContent platform content) as [t|e] eqn:Ht;
    [|discriminate].
  destruct (validateHashtags platform hashtags) as [h|e] eqn:Hh;
    [|discriminate].
  cbn [Js.bind]. intros [= <-].
  apply validateTextContent_flag in Ht. apply validateHashtags_flag in Hh.
  unfold flagMatchesErrors in *. cbn [valid errors].
  rewrite andb_true_iff, Ht, Hh. split.
  - now intros [-> ->].
  - intros H. now apply app_eq_nil in H.
Qed.

Section EntryPoints.

Context {fmt : NumberFormat}.

Lemma validateImage_flag platform width height fileSizeMB format r :
  validateImage platform width height fileSizeMB format
    = Js.Normal r ->
  flagMatchesErrors r.
Proof. unfold validateImage. intros H. by_return H. Qed.

Lemma validateVideo_flag platform width height durationSeconds fileSizeMB format r :
  validateVideo platform width height durationSeconds
    fileSizeMB format = Js.Normal r ->
  flagMatchesErrors r.
Proof. unfold validateVideo. intros H. by_return H. Qed.

Lemma Returned_flag r :
  Returned r -> flagMatchesErrors r.
Proof.
  intros [p c H|p h H|p w h s f H|p w h d s f H|p c h H];
    eauto using validateTextContent_flag, validateHashtags_flag,
      validateImage_flag, validateVideo_flag, validatePost_flag.
Qed.

(** C1. A result returned by any of the five validators has [valid]
    true exactly when its [errors] list is empty; and two returned
    results with the same errors have the same flag, whatever their
    warnings are. *)
Theorem valid_iff_no_errors r :
  Returned r ->
  (valid r = true <-> errors r = []) /\
  (forall r', Returned r' ->
              errors r' = errors r -> valid r' = valid r).
Proof.
  intros Hr. split; [exact (Returned_flag r Hr)|].
  intros r' Hr' He.
  apply Returned_flag in Hr, Hr'. unfold flagMatchesErrors in *.
  rewrite He in Hr'.
  destruct (valid r), (valid r'); try reflexivity.
  - apply Hr'. now apply Hr.
  - symmetry. apply Hr. now apply Hr'.
Qed.

(** C3, amended. When the lower-case platform is no property of the
    registry object at all, the four single validators return the
    unknown-platform result with its one error, and [validatePost]
    returns it with that error twice, once per sub-validator. *)
Theorem unknown_platform_results platform :
  notAProperty platform ->
  forall content hashtags width height durationSeconds fileSizeMB format,
    validateTextContent platform content
      = Js.Normal (unknownPlatform platform) /\
    validateHashtags platform hashtags
      = Js.Normal (unknownPlatform platform) /\
    validateImage platform width height fileSizeMB format
      = Js.Normal (unknownPlatform platform) /\
    validateVideo platform width height durationSeconds
      fileSizeMB format = Js.Normal (unknownPlatform platform) /\
    validatePost platform content hashtags
      = Js.Normal
          {| valid := false;
             errors := [ "Unknown platform: " ++ platform;
                         "Unknown platform: " ++ platform ];
             warnings := [];
             stats := Stats.empty |}.
Proof.
  unfold notAProperty. intros H *.
  unfold validatePost, validateTextContent, validateHashtags,
    validateImage, validateVideo.
  rewrite H. repeat split.
Qed.

End EntryPoints.

Lemma valid_iff_no_errors_witness :
  exists r,
    validateImage (fmt := integralFormat) "Instagram" 500 500 1 "jpeg"
      = Js.Normal r /\
    warnings r <> [] /\
    (valid r = true <-> errors r = []) /\
    (forall r', Returned (fmt := integralFormat) r' ->
                errors r' = errors r -> valid r' = valid r).
Proof.
  eexists. split; [vm_compute; reflexivity|]. split; [discriminate|].
  apply (valid_iff_no_errors (fmt := integralFormat)).
  apply (returned_image _ "Instagram" 500 500 1 "jpeg")%float.
  vm_compute. reflexivity.
Defined.

Lemma unknown_platform_results_witness :
  validateTextContent "MySpace" "hello"
    = Js.Normal (unknownPlatform "MySpace") /\
  validateHashtags "MySpace" ["#a"]
    = Js.Normal (unknownPlatform "MySpace") /\
  validateImage (fmt := integralFormat) "MySpace" 1080 1080 1 "PNG"
    = Js.Normal (unknownPlatform "MySpace") /\
  validateVideo (fmt := integralFormat) "MySpace" 1080 1080 30 1 "PNG"
    = Js.Normal (unknownPlatform "MySpace") /\
  validatePost "MySpace" "hello" ["#a"]
    = Js.Normal
        {| valid := false;
           errors := [ "Unknown platform: MySpace"; "Unknown platform: MySpace" ];
           warnings := [];
           stats := Stats.empty |}.
Proof.
  apply (unknown_platform_results (fmt := integralFormat) "MySpace").
  reflexivity.
Defined.

(** C3 fails as stated on [validatePost]: for an unknown platform each of
    its two sub-validators contributes the error, so the result is not
    the single-error one. *)
Lemma validatePost_unknown_platform_not_single_error :
  ownProperty (Js.toLowerCase "myspace") PLATFORM_SPECS = None /\
  validatePost "myspace" "hello" [] <> Js.Normal (unknownPlatform "myspace") /\
  (forall r, validatePost "myspace" "hello" [] = Js.Normal r ->
             List.length (errors r) = 2%nat).
Proof.
  split; [reflexivity|]. split.
  - vm_compute. discriminate.
  - intros r H. vm_compute in H. injection H as <-. reflexivity.
Qed.

(* ===================================================================== *)
(** ** Lookups in the registry *)
(* ===================================================================== *)

(** [getPlatformSpec] is case-insensitive. *)
Lemma getPlatformSpec_case_insensitive s :
  getPlatformSpec s = getPlatformSpec (Js.toLowerCase s).
Proof.
  unfold getPlatformSpec. now rewrite toLowerCase_idempotent.
Qed.

Lemma getPlatformSpec_INSTAGRAM :
  getPlatformSpec "INSTAGRAM" = getPlatformSpec "instagram" /\
  getPlatformSpec "instagram" = Some (Own instagram).
Proof. split; reflexivity. Qed.

(** A string that is no property of the registry object yields the
    absent value. *)
Lemma getPlatformSpec_absent s :
  notAProperty s -> getPlatformSpec s = None.
Proof. unfold notAProperty, getPlatformSpec. now intros ->. Qed.

Lemma getPlatformSpec_myspace : getPlatformSpec "myspace" = None.
Proof. reflexivity. Qed.

Lemma arrayIncludes_In xs x : Js.arrayIncludes xs x = true -> In x xs.
Proof.
  induction xs as [|y ys IH]; cbn [Js.arrayIncludes]; [discriminate|].
  rewrite orb_true_iff. intros [H|H].
  - left. now apply String.eqb_eq.
  - right. auto.
Qed.

(** The only inherited properties a lower-case key can reach. *)
Lemma inherited_keys platform key :
  getProperty (Js.toLowerCase platform) = Some (Inherited key) ->
  key = "constructor" \/ key = "__proto__".
Proof.
  unfold getProperty.
  destruct (ownProperty _ PLATFORM_SPECS); [discriminate|].
  destruct (Js.arrayIncludes OBJECT_PROTOTYPE (Js.toLowerCase platform)) eqn:E;
    [|discriminate].
  intros [= <-]. apply arrayIncludes_In in E.
  pose proof (toLowerCase_idempotent platform) as Hidem.
  simpl in E.
  decompose [or] E; try contradiction;
    match goal with
    | H : _ = Js.toLowerCase platform |- _ =>
        rewrite <- H in Hidem |- *; try discriminate Hidem; tauto
    end.
Qed.

(** C9 fails on the code: [constructor] is no key of the registry, yet
    the lookup finds the member that every object inherits from
    [Object.prototype], so [getPlatformSpec] returns it, not the absent
    value. The same holds for [__proto__]. *)
Theorem getPlatformSpec_inherited_not_absent :
  ownProperty (Js.toLowerCase "constructor") PLATFORM_SPECS = None /\
  getPlatformSpec "constructor" = Some (Inherited "constructor") /\
  ownProperty (Js.toLowerCase "__proto__") PLATFORM_SPECS = None /\
  getPlatformSpec "__proto__" = Some (Inherited "__proto__").
Proof. repeat split. Qed.

Section InheritedKeys.

Context {fmt : NumberFormat}.

(** On such a key every validator throws: the truthy inherited member
    passes the [!spec] test and has none of the fields read next. *)
Lemma validators_throw_on_constructor
    content hashtags width height durationSeconds fileSizeMB format :
  validateTextContent "constructor" content
    = Js.Throw (Js.TypeError "maxChars") /\
  validateHashtags "constructor" hashtags
    = Js.Throw (Js.TypeError "max") /\
  validateImage "constructor" width height
    fileSizeMB format = Js.Throw (Js.TypeError "formats") /\
  validateVideo "constructor" width height
    durationSeconds fileSizeMB format = Js.Throw (Js.TypeError "formats") /\
  validatePost "constructor" content hashtags
    = Js.Throw (Js.TypeError "maxChars").
Proof. repeat split. Qed.

Lemma getProperty_Inherited k key :
  getProperty k = Some (Inherited key) -> key = k.
Proof.
  unfold getProperty.
  destruct (ownProperty k PLATFORM_SPECS); [discriminate|].
  destruct (Js.arrayIncludes OBJECT_PROTOTYPE k); [|discriminate].
  now intros [= <-].
Qed.

(** On every other platform string the five validators return. *)
Lemma validators_return platform :
  Js.toLowerCase platform <> "constructor" ->
  Js.toLowerCase platform <> "__proto__" ->
  forall content hashtags width height durationSeconds fileSizeMB format,
    (exists r, validateTextContent platform content = Js.Normal r) /\
    (exists r, validateHashtags platform hashtags = Js.Normal r) /\
    (exists r, validateImage platform width height fileSizeMB format
               = Js.Normal r) /\
    (exists r, validateVideo platform width height durationSeconds
                 fileSizeMB format = Js.Normal r) /\
    (exists r, validatePost platform content hashtags = Js.Normal r).
Proof.
  intros Hc Hp *.
  unfold validatePost, validateTextContent, validateHashtags,
    validateImage, validateVideo.
  destruct (getProperty (Js.toLowerCase platform)) as [[spec|key]|] eqn:E.
  - repeat split; eexists; reflexivity.
  - pose proof (getProperty_Inherited _ _ E) as ->.
    destruct (inherited_keys _ _ E); contradiction.
  - repeat split; eexists; reflexivity.
Qed.

End InheritedKeys.

(* ===================================================================== *)
(** ** Facts about strings, arrays and binary64 comparisons *)
(* ===================================================================== *)

Lemma find_None_iff {A} (p : A -> bool) xs :
  Js.find p xs = None <-> (forall x, In x xs -> p x = false).
Proof.
  induction xs as [|x r IH]; simpl.
  - split; [intros _ y []|reflexivity].
  - destruct (p x) eqn:E.
    + split; [discriminate|]. intros H. rewrite (H x) in E by auto. discriminate.
    + rewrite IH. split.
      * intros H y [<-|Hy]; auto.
      * intros H y Hy. apply H. auto.
Qed.

Lemma In_when (b : bool) (x y : string) :
  In x (if b then [y] else []) <-> b = true /\ y = x.
Proof.
  destruct b; simpl; split; try tauto; intros [? ?]; discriminate.
Qed.

Lemma startsWith_refl p : Js.startsWith p p = true.
Proof.
  induction p as [|c r IH]; simpl; [reflexivity|].
  now rewrite Ascii.eqb_refl, IH.
Qed.

Lemma startsWith_app p s t :
  Js.startsWith p s = true -> Js.startsWith p (s ++ t) = true.
Proof.
  revert s. induction p as [|c r IH]; intros s; [reflexivity|].
  destruct s as [|b s']; cbn [Js.startsWith append]; [discriminate|].
  rewrite !andb_true_iff. intros [-> H]. auto.
Qed.

Lemma includes_unfold p s :
  Js.includes p s
  = Js.startsWith p s
    || match s with
       | EmptyString => false
       | String _ r => Js.includes p r
       end.
Proof. destruct s; reflexivity. Qed.

Lemma includes_app_l p s t :
  Js.includes p s = true -> Js.includes p (s ++ t) = true.
Proof.
  induction s as [|c r IH]; rewrite (includes_unfold p), orb_true_iff.
  - intros [H|H]; [|discriminate].
    rewrite includes_unfold. now rewrite (startsWith_app _ _ t H).
  - intros [H|H]; rewrite includes_unfold.
    + now rewrite (startsWith_app _ _ t H).
    + cbn [append]. rewrite (IH H). apply orb_true_r.
Qed.

Lemma includes_app_r p s t :
  Js.includes p t = true -> Js.includes p (s ++ t) = true.
Proof.
  intros H. induction s as [|c r IH]; [exact H|].
  cbn [append]. rewrite includes_unfold, IH. apply orb_true_r.
Qed.

Lemma includes_middle p s t : Js.includes p (s ++ p ++ t) = true.
Proof.
  apply includes_app_r, includes_app_l.
  rewrite includes_unfold, startsWith_refl. reflexivity.
Qed.

Lemma join_includes sep xs x :
  In x xs -> Js.includes x (Js.join sep xs) = true.
Proof.
  induction xs as [|y ys IH]; [intros []|].
  intros Hin. cbn [Js.join].
  destruct ys as [|z zs].
  - destruct Hin as [->|[]].
    rewrite includes_unfold, startsWith_refl. reflexivity.
  - destruct Hin as [->|Hin].
    + apply includes_app_l. rewrite includes_unfold, startsWith_refl. reflexivity.
    + apply includes_app_r, includes_app_r. auto.
Qed.

Lemma startsWith_iff p s :
  Js.startsWith p s = true <-> exists post, s = p ++ post.
Proof.
  revert s. induction p as [|c r IH]; intros s.
  - split; [intros _; now exists s|reflexivity].
  - destruct s as [|b s']; cbn [Js.startsWith append].
    + split; [discriminate|intros [post H]; discriminate H].
    + rewrite andb_true_iff, IH. split.
      * intros [Hc [post ->]]. apply Ascii.eqb_eq in Hc. subst b. now exists post.
      * intros [post [= -> ->]]. split; [apply Ascii.eqb_refl|now exists post].
Qed.

Lemma includes_iff p s :
  Js.includes p s = true <-> exists pre post, s = pre ++ p ++ post.
Proof.
  split.
  - induction s as [|c r IH]; rewrite includes_unfold, orb_true_iff.
    + intros [H|H]; [|discriminate].
      apply startsWith_iff in H. destruct H as [post ->].
      now exists EmptyString, post.
    + intros [H|H].
      * apply startsWith_iff in H. destruct H as [post ->].
        now exists EmptyString, post.
      * destruct (IH H) as (pre & post & ->). now exists (String c pre), post.
  - intros (pre & post & ->). apply includes_middle.
Qed.

Lemma append_assoc (a b c : string) : (a ++ b) ++ c = a ++ b ++ c.
Proof. induction a as [|x a IH]; simpl; [reflexivity|now rewrite IH]. Qed.

Lemma includes_trans p q s :
  Js.includes p q = true -> Js.includes q s = true -> Js.includes p s = true.
Proof.
  rewrite !includes_iff.
  intros (a & b & ->) (c & d & ->).
  exists (c ++ a), (b ++ d). now rewrite !append_assoc.
Qed.

(** Swapping the sides of a comparison of two binary64 values. *)
Lemma SFcompare_swap x y c :
  SFcompare x y = Some c -> SFcompare y x = Some (CompOpp c).
Proof.
  destruct x as [s1|s1| |s1 m1 e1], y as [s2|s2| |s2 m2 e2]; simpl;
    try discriminate; intros [= <-];
    try (destruct s1; reflexivity); try (destruct s2; reflexivity);
    try (destruct s1, s2; reflexivity).
  f_equal. destruct s1, s2; try reflexivity;
    rewrite (Z.compare_antisym e1 e2); destruct (e1 ?= e2); simpl;
      try reflexivity.
  - now rewrite (Pos.compare_cont_antisym m1 m2 Eq).
  - now rewrite (Pos.compare_cont_antisym m1 m2 Eq).
Qed.

(** [x <= y] excludes [x > y]. *)
Lemma leb_not_gt x y : PrimFloat.leb x y = true -> Js.gt x y = false.
Proof.
  unfold Js.gt. rewrite leb_spec, ltb_spec. unfold SFleb, SFltb.
  destruct (SFcompare (Prim2SF x) (Prim2SF y)) as [c|] eqn:E; [|discriminate].
  rewrite (SFcompare_swap _ _ _ E). now destruct c.
Qed.

(* ===================================================================== *)
(** ** validateImage and validateVideo *)
(* ===================================================================== *)

(** Two messages that part ways inside their literal beginnings. *)
Ltac differ_at prefix :=
  let H := fresh "H" in
  intros H; apply (f_equal (Js.startsWith prefix)) in H;
  vm_compute in H; discriminate H.

Section MediaFacts.

Context {fmt : NumberFormat}.


(** What [validateImage] returns on a supported platform, check by
    check. *)
Lemma validateImage_supported platform spec width height fileSizeMB format :
  supported platform spec ->
  let images := PlatformSpec.images spec in
  let minRecommendedWidth :=
    Js.mathMin (map MediaDimension.width (Images.dimensions images)) in
  exists r,
    validateImage platform width height fileSizeMB format = Js.Normal r /\
    errors r =
      ((if negb (Js.arrayIncludes (Images.formats images)
                   (Js.replace "JPEG" "JPG" (Js.toUpperCase format)))
        then [imageFormatError spec] else [])
       ++ (if Js.gt fileSizeMB (Images.maxSizeMB images)
           then [imageSizeError spec fileSizeMB] else []))%list /\
    warnings r =
      ((match Js.find (ratioMatches (width / height)) (Images.dimensions images) with
        | None => [imageAspectWarning spec width height]
        | Some _ => []
        end)
       ++ (if Js.lt width (minRecommendedWidth * 0.5)
           then [smallWidthWarning spec width minRecommendedWidth]
           else []))%list /\
    valid r = Nat.eqb (List.length (errors r)) 0.
Proof.
  intros Hs images minRecommendedWidth.
  unfold validateImage.
  rewrite (supported_getProperty _ _ Hs).
  eexists; split; [reflexivity|].
  fold images. fold minRecommendedWidth. unfold result.
  cbn [valid errors warnings].
  destruct (Js.find _ _); autorewrite with diag;
    cbn [errs warns noDiag pushWarning app]; autorewrite with diag;
    cbn [errs warns noDiag app]; auto.
Qed.

(** What [validateVideo] returns on a supported platform, check by
    check. *)
Lemma validateVideo_supported platform spec width height durationSeconds
    fileSizeMB format :
  supported platform spec ->
  let videos := PlatformSpec.videos spec in
  exists r,
    validateVideo platform width height durationSeconds fileSizeMB format
      = Js.Normal r /\
    errors r =
      ((if negb (Js.arrayIncludes (Videos.formats videos) (Js.toUpperCase format))
        then [videoFormatError spec] else [])
       ++ (if Js.gt fileSizeMB (Videos.maxSizeMB videos)
           then [videoSizeError spec fileSizeMB] else [])
       ++ (if Js.gt durationSeconds (Videos.maxDurationSeconds videos)
           then [durationError spec durationSeconds] else []))%list /\
    warnings r =
      ((if Js.lt durationSeconds 3
        then [shortVideoWarning durationSeconds] else [])
       ++ (match Js.find (ratioMatches (width / height)) (Videos.dimensions videos) with
           | None => [videoAspectWarning spec width height]
           | Some _ => []
           end)
       ++ (if String.eqb (Js.toLowerCase platform) "instagram"
              && Js.gt durationSeconds 90
           then [reelsWarning] else [])
       ++ (if String.eqb (Js.toLowerCase platform) "tiktok"
              && Js.gt durationSeconds 60
           then [tiktokLengthWarning] else []))%list /\
    valid r = Nat.eqb (List.length (errors r)) 0.
Proof.
  intros Hs videos.
  unfold validateVideo.
  rewrite (supported_getProperty _ _ Hs).
  eexists; split; [reflexivity|].
  fold videos. unfold result. cbn [valid errors warnings].
  destruct (Js.find _ _); autorewrite with diag;
    cbn [errs warns noDiag pushWarning app]; autorewrite with diag;
    cbn [errs warns noDiag app]; rewrite <- ?app_assoc; auto.
Qed.

End MediaFacts.

Section MediaClaims.

Context {fmt : NumberFormat}.


(** A computed difference equal to the tolerance is no match. *)
Lemma ratioMatches_boundary aspectRatio dim :
  PrimFloat.abs
    (aspectRatio - MediaDimension.width dim / MediaDimension.height dim)%float
  = ASPECT_TOLERANCE ->
  ratioMatches aspectRatio dim = false.
Proof. unfold ratioMatches. cbv zeta. now intros ->. Qed.

(** The mismatch warnings name every recommended pair. *)
Lemma recommendedRatios_lists_all dims d :
  In d dims ->
  Js.includes (MediaDimension.name d ++ " (" ++ MediaDimension.aspectRatio d ++ ")")
    (recommendedRatios dims) = true.
Proof.
  intros H. unfold recommendedRatios. apply join_includes.
  apply (in_map (fun d => MediaDimension.name d ++ " ("
                          ++ MediaDimension.aspectRatio d ++ ")") _ _ H).
Qed.

Lemma imageAspectWarning_lists spec width height :
  Js.includes (recommendedRatios (Images.dimensions (PlatformSpec.images spec)))
    (imageAspectWarning spec width height) = true.
Proof.
  unfold imageAspectWarning.
  repeat (apply includes_middle || apply includes_app_r).
Qed.

Lemma videoAspectWarning_lists spec width height :
  Js.includes (recommendedRatios (Videos.dimensions (PlatformSpec.videos spec)))
    (videoAspectWarning spec width height) = true.
Proof.
  unfold videoAspectWarning.
  repeat (apply includes_middle || apply includes_app_r).
Qed.

(** C5, amended. In both media validators, on a supported platform: a
    recommended entry matches exactly when the absolute difference of
    the two ratios, as computed in binary64, is below the binary64
    value of 0.05, and a computed difference equal to it is no match;
    the mismatch warning, which lists every recommended pair, is emitted
    exactly when no entry matches; and the errors and the flag are those
    of the format, size and duration checks alone, so the sizes in
    pixels never make a result invalid. *)
Theorem aspect_ratio_mismatch_is_advisory
    platform spec width height durationSeconds fileSizeMB format :
  supported platform spec ->
  let images := PlatformSpec.images spec in
  let videos := PlatformSpec.videos spec in
  let aspectRatio := (width / height)%float in
  (forall dim,
     ratioMatches aspectRatio dim
     = (PrimFloat.abs
          (aspectRatio - MediaDimension.width dim / MediaDimension.height dim)
        <? 0.05)%float) /\
  (forall dim,
     PrimFloat.abs
       (aspectRatio - MediaDimension.width dim / MediaDimension.height dim)%float
     = 0.05%float ->
     ratioMatches aspectRatio dim = false) /\
  (exists r,
     validateImage platform width height fileSizeMB format = Js.Normal r /\
     (In (imageAspectWarning spec width height) (warnings r) <->
      forall dim, In dim (Images.dimensions images) ->
                  ratioMatches aspectRatio dim = false) /\
     (forall d, In d (Images.dimensions images) ->
        Js.includes
          (MediaDimension.name d ++ " (" ++ MediaDimension.aspectRatio d ++ ")")
          (imageAspectWarning spec width height) = true) /\
     errors r =
       ((if negb (Js.arrayIncludes (Images.formats images)
                    (Js.replace "JPEG" "JPG" (Js.toUpperCase format)))
         then [imageFormatError spec] else [])
        ++ (if Js.gt fileSizeMB (Images.maxSizeMB images)
            then [imageSizeError spec fileSizeMB] else []))%list /\
     valid r =
       Js.arrayIncludes (Images.formats images)
         (Js.replace "JPEG" "JPG" (Js.toUpperCase format))
       && negb (Js.gt fileSizeMB (Images.maxSizeMB images))) /\
  (exists r,
     validateVideo platform width height durationSeconds fileSizeMB format
       = Js.Normal r /\
     (In (videoAspectWarning spec width height) (warnings r) <->
      forall dim, In dim (Videos.dimensions videos) ->
                  ratioMatches aspectRatio dim = false) /\
     (forall d, In d (Videos.dimensions videos) ->
        Js.includes
          (MediaDimension.name d ++ " (" ++ MediaDimension.aspectRatio d ++ ")")
          (videoAspectWarning spec width height) = true) /\
     errors r =
       ((if negb (Js.arrayIncludes (Videos.formats videos) (Js.toUpperCase format))
         then [videoFormatError spec] else [])
        ++ (if Js.gt fileSizeMB (Videos.maxSizeMB videos)
            then [videoSizeError spec fileSizeMB] else [])
        ++ (if Js.gt durationSeconds (Videos.maxDurationSeconds videos)
            then [durationError spec durationSeconds] else []))%list /\
     valid r =
       Js.arrayIncludes (Videos.formats videos) (Js.toUpperCase format)
       && negb (Js.gt fileSizeMB (Videos.maxSizeMB videos))
       && negb (Js.gt durationSeconds (Videos.maxDurationSeconds videos))).
Proof.
  intros Hs images videos aspectRatio.
  split; [reflexivity|].
  split; [intros dim; apply ratioMatches_boundary|].
  split.
  - destruct (validateImage_supported platform spec
                width height fileSizeMB format Hs)
      as (r & Hr & He & Hw & Hv).
    fold images aspectRatio in He, Hw.
    exists r. split; [exact Hr|]. split; [|split; [|split]].
    + rewrite Hw, in_app_iff, <- find_None_iff.
      destruct (Js.find _ _) as [m|].
      * split; [|discriminate]. intros [H|H]; [destruct H|].
        destruct (Js.lt _ _); simpl in H; [destruct H as [H|[]]|destruct H].
        revert H. differ_at "Image w".
      * split; [reflexivity|]. intros _. left. now left.
    + intros d Hd.
      exact (includes_trans _ _ _ (recommendedRatios_lists_all _ d Hd)
               (imageAspectWarning_lists spec width height)).
    + exact He.
    + rewrite Hv, He.
      destruct (Js.arrayIncludes _ _), (Js.gt _ _); reflexivity.
  - destruct (validateVideo_supported platform spec
                width height durationSeconds fileSizeMB format Hs)
      as (r & Hr & He & Hw & Hv).
    fold videos aspectRatio in He, Hw.
    exists r. split; [exact Hr|]. split; [|split; [|split]].
    + rewrite Hw, !in_app_iff, <- find_None_iff.
      destruct (Js.find _ _) as [m|].
      * split; [|discriminate]. intros [H|[H|[H|H]]]; [|destruct H| |].
        -- destruct (Js.lt _ _); simpl in H; [destruct H as [H|[]]|destruct H].
           revert H. differ_at "Video is".
        -- destruct ((_ =? "instagram")%string && _); simpl in H;
             [destruct H as [H|[]]|destruct H].
           revert H. differ_at "Video is".
        -- destruct ((_ =? "tiktok")%string && _); simpl in H;
             [destruct H as [H|[]]|destruct H].
           revert H. differ_at "Video is".
      * split; [reflexivity|]. intros _. right. left. now left.
    + intros d Hd.
      exact (includes_trans _ _ _ (recommendedRatios_lists_all _ d Hd)
               (videoAspectWarning_lists spec width height)).
    + exact He.
    + rewrite Hv, He.
      destruct (Js.arrayIncludes _ _), (Js.gt fileSizeMB _), (Js.gt durationSeconds _);
        reflexivity.
Qed.

End MediaClaims.

Lemma aspect_ratio_mismatch_is_advisory_witness :
  exists r,
    validateImage (fmt := integralFormat) "instagram" 21 20 1 "jpeg"
      = Js.Normal r /\
    In (imageAspectWarning (fmt := integralFormat) instagram 21 20) (warnings r) /\
    valid r = true.
Proof.
  destruct (aspect_ratio_mismatch_is_advisory (fmt := integralFormat)
              "instagram" instagram 21 20 30 1 "jpeg" eq_refl)
    as (_ & _ & (r & Hr & Hiff & _ & _ & Hv) & _).
  exists r. split; [exact Hr|]. split.
  - apply Hiff. intros dim Hin. simpl in Hin.
    decompose [or] Hin; try contradiction; subst; vm_compute; reflexivity.
  - rewrite Hv. vm_compute. reflexivity.
Defined.

(** C5 fails as stated, with exact numbers: a 17 by 20 image is at
    distance exactly 1/20 from the 4:5 portrait entry of Instagram, which
    is not below the tolerance, yet the computed difference is, the
    entry matches and no mismatch warning is emitted. A 21 by 20 image is
    at the same exact distance from the square entry and does not
    match. *)
Lemma exact_tolerance_boundary_matches :
  In (dim "Portrait" 1080 1350 "4:5")
     (Images.dimensions (PlatformSpec.images instagram)) /\
  (exists q, exactRatioDistance 17 20 (dim "Portrait" 1080 1350 "4:5") = Some q /\
             (q == 1 # 20)%Q /\ ~ (q < 1 # 20)%Q) /\
  ratioMatches (17 / 20)%float (dim "Portrait" 1080 1350 "4:5") = true /\
  (exists r,
     validateImage (fmt := integralFormat) "instagram" 17 20 1 "JPG"
       = Js.Normal r /\
     ~ In (imageAspectWarning (fmt := integralFormat) instagram 17 20) (warnings r)) /\
  (exists q, exactRatioDistance 21 20 (dim "Square" 1080 1080 "1:1") = Some q /\
             (q == 1 # 20)%Q) /\
  ratioMatches (21 / 20)%float (dim "Square" 1080 1080 "1:1") = false.
Proof.
  split; [simpl; tauto|]. split; [|split; [|split; [|split]]].
  - eexists. split; [vm_compute; reflexivity|].
    split; [reflexivity|]. intros H. vm_compute in H. discriminate H.
  - vm_compute. reflexivity.
  - eexists. split; [vm_compute; reflexivity|].
    cbn [warnings]. intros [H|[]]. revert H.
    differ_at "Image w".
  - eexists. split; [vm_compute; reflexivity|]. reflexivity.
  - vm_compute. reflexivity.
Qed.

(* ===================================================================== *)
(** ** Duration limits of validateVideo *)
(* ===================================================================== *)

Section DurationClaims.

Context {fmt : NumberFormat}.


(** The duration error and the two soft warnings: when each is there. *)
Lemma duration_checks platform spec width height durationSeconds fileSizeMB format :
  supported platform spec ->
  exists r,
    validateVideo platform width height durationSeconds fileSizeMB format
      = Js.Normal r /\
    (In (durationError spec durationSeconds) (errors r) <->
     Js.gt durationSeconds (Videos.maxDurationSeconds (PlatformSpec.videos spec))
       = true) /\
    (In reelsWarning (warnings r) <->
     Js.toLowerCase platform = "instagram" /\ Js.gt durationSeconds 90 = true) /\
    (In tiktokLengthWarning (warnings r) <->
     Js.toLowerCase platform = "tiktok" /\ Js.gt durationSeconds 60 = true).
Proof.
  intros Hs.
  destruct (validateVideo_supported platform spec
              width height durationSeconds fileSizeMB format Hs)
    as (r & Hr & He & Hw & _).
  exists r. split; [exact Hr|]. split; [|split].
  - rewrite He, !in_app_iff, !In_when. split.
    + intros [[_ H]|[[_ H]|[H _]]]; [exfalso|exfalso|exact H]; revert H.
      * differ_at "Video".
      * differ_at "Video d".
    + intros H. right; right. now split.
  - rewrite Hw, !in_app_iff, !In_when. split.
    + intros [[_ H]|[H|[[H _]|[_ H]]]].
      * exfalso. revert H. differ_at "Video is v".
      * destruct (Js.find _ _); simpl in H; [destruct H|destruct H as [H|[]]].
        exfalso. revert H. differ_at "Video a".
      * apply andb_true_iff in H. destruct H as [H1 H2].
        apply String.eqb_eq in H1. now split.
      * exfalso. revert H. differ_at "Video is longer than 6".
    + intros [H1 H2]. right; right; left. split; [|reflexivity].
      rewrite H2, andb_true_r. now apply String.eqb_eq.
  - rewrite Hw, !in_app_iff, !In_when. split.
    + intros [[_ H]|[H|[[_ H]|[H _]]]].
      * exfalso. revert H. differ_at "Video is v".
      * destruct (Js.find _ _); simpl in H; [destruct H|destruct H as [H|[]]].
        exfalso. revert H. differ_at "Video a".
      * exfalso. revert H. differ_at "Video is longer than 9".
      * apply andb_true_iff in H. destruct H as [H1 H2].
        apply String.eqb_eq in H1. now split.
    + intros [H1 H2]. right; right; right. split; [|reflexivity].
      rewrite H2, andb_true_r. now apply String.eqb_eq.
Qed.

End DurationClaims.

Section SoftDurationWarnings.

Context {fmt : NumberFormat}.


(** C8. On Instagram the Reels warning is emitted exactly when the
    duration exceeds 90 seconds and the duration error exactly when it
    exceeds 900, so a duration over 90 and at most 900 gives the warning
    and no duration error; on TikTok the same holds with the engagement
    warning, 60 and 3600. *)
Theorem soft_duration_warnings
    instagramName tiktokName width height durationSeconds fileSizeMB format :
  Js.toLowerCase instagramName = "instagram" ->
  Js.toLowerCase tiktokName = "tiktok" ->
  (exists r,
     validateVideo instagramName width height durationSeconds fileSizeMB format
       = Js.Normal r /\
     (In reelsWarning (warnings r) <-> Js.gt durationSeconds 90 = true) /\
     (In (durationError instagram durationSeconds) (errors r)
      <-> Js.gt durationSeconds 900 = true) /\
     (Js.gt durationSeconds 90 = true ->
      PrimFloat.leb durationSeconds 900 = true ->
      In reelsWarning (warnings r) /\
      ~ In (durationError instagram durationSeconds) (errors r))) /\
  (exists r,
     validateVideo tiktokName width height durationSeconds fileSizeMB format
       = Js.Normal r /\
     (In tiktokLengthWarning (warnings r) <-> Js.gt durationSeconds 60 = true) /\
     (In (durationError tiktok durationSeconds) (errors r)
      <-> Js.gt durationSeconds 3600 = true) /\
     (Js.gt durationSeconds 60 = true ->
      PrimFloat.leb durationSeconds 3600 = true ->
      In tiktokLengthWarning (warnings r) /\
      ~ In (durationError tiktok durationSeconds) (errors r))).
Proof.
  intros Hi Ht.
  assert (Si : supported instagramName instagram)
    by (unfold supported; now rewrite Hi).
  assert (St : supported tiktokName tiktok)
    by (unfold supported; now rewrite Ht).
  split.
  - destruct (duration_checks instagramName instagram
                width height durationSeconds fileSizeMB format Si)
      as (r & Hr & He & Hw & _).
    change (Videos.maxDurationSeconds (PlatformSpec.videos instagram))
      with 900%float in He.
    assert (W : In reelsWarning (warnings r) <-> Js.gt durationSeconds 90 = true)
      by (rewrite Hw; tauto).
    exists r. split; [exact Hr|]. split; [exact W|]. split; [exact He|].
    intros Gsoft Lhard. split; [now apply W|].
    rewrite He. intros G. now rewrite (leb_not_gt _ _ Lhard) in G.
  - destruct (duration_checks tiktokName tiktok
                width height durationSeconds fileSizeMB format St)
      as (r & Hr & He & _ & Hw).
    change (Videos.maxDurationSeconds (PlatformSpec.videos tiktok))
      with 3600%float in He.
    assert (W : In tiktokLengthWarning (warnings r)
                <-> Js.gt durationSeconds 60 = true)
      by (rewrite Hw; tauto).
    exists r. split; [exact Hr|]. split; [exact W|]. split; [exact He|].
    intros Gsoft Lhard. split; [now apply W|].
    rewrite He. intros G. now rewrite (leb_not_gt _ _ Lhard) in G.
Qed.

End SoftDurationWarnings.

Lemma soft_duration_warnings_witness :
  (exists r,
     validateVideo (fmt := integralFormat) "Instagram" 1080 1920 120 10 "mp4"
       = Js.Normal r /\
     In reelsWarning (warnings r) /\
     ~ In (durationError (fmt := integralFormat) instagram 120) (errors r)) /\
  (exists r,
     validateVideo (fmt := integralFormat) "TikTok" 1080 1920 120 10 "mp4"
       = Js.Normal r /\
     In tiktokLengthWarning (warnings r) /\
     ~ In (durationError (fmt := integralFormat) tiktok 120) (errors r)).
Proof.
  destruct (soft_duration_warnings (fmt := integralFormat)
              "Instagram" "TikTok" 1080 1920 120 10 "mp4" eq_refl eq_refl)
    as ((r & Hr & _ & _ & Hin) & (r' & Hr' & _ & _ & Hin')).
  split.
  - exists r. split; [exact Hr|]. apply Hin; reflexivity.
  - exists r'. split; [exact Hr'|]. apply Hin'; reflexivity.
Defined.

(* ===================================================================== *)
(** ** Further properties of the registry *)
(* ===================================================================== *)

Lemma getPlatformSpec_Own_iff platform spec :
  getPlatformSpec platform = Some (Own spec) <-> supported platform spec.
Proof.
  unfold getPlatformSpec, supported. split.
  - destruct (getProperty (Js.toLowerCase platform)) as [v|] eqn:E;
      [|discriminate].
    intros [= ->]. now apply getProperty_Own.
  - intros H. unfold getProperty. now rewrite H.
Qed.

(** X1. [getSupportedPlatforms] lists exactly the platforms that have a
    specification: each listed key is found by [getPlatformSpec] and
    accepted by [isPlatformSupported]; a string has a registry entry
    only if its lower-case form is listed; and no key is listed twice. *)
Theorem getSupportedPlatforms_round_trip :
  (forall key, In key getSupportedPlatforms ->
     exists spec, getPlatformSpec key = Some (Own spec) /\
                  isPlatformSupported key = true) /\
  (forall platform spec,
     getPlatformSpec platform = Some (Own spec) ->
     In (Js.toLowerCase platform) getSupportedPlatforms) /\
  NoDup getSupportedPlatforms.
Proof.
  split; [|split].
  - intros key H. simpl in H.
    decompose [or] H; try contradiction; subst; eexists; split; reflexivity.
  - intros platform spec H. apply getPlatformSpec_Own_iff in H.
    apply ownProperty_cases in H. simpl.
    decompose [and or] H; match goal with E : Js.toLowerCase _ = _ |- _ => rewrite E end;
      tauto.
  - unfold getSupportedPlatforms; simpl.
    repeat constructor; simpl; intuition discriminate.
Qed.

(** X2. [isPlatformSupported] is case-insensitive and answers true
    exactly when [getPlatformSpec] returns a value other than null. *)
Theorem isPlatformSupported_iff_getPlatformSpec platform :
  (isPlatformSupported platform = true <-> getPlatformSpec platform <> None) /\
  isPlatformSupported (Js.toLowerCase platform) = isPlatformSupported platform.
Proof.
  unfold isPlatformSupported, hasProperty, getPlatformSpec.
  rewrite toLowerCase_idempotent. split; [|reflexivity].
  destruct (getProperty (Js.toLowerCase platform)); split;
    congruence.
Qed.

(** X3. On a supported platform none of the three optimal-dimension
    queries returns null: each returns the first recommended entry, and
    the optimal aspect ratio is the label of the optimal image
    dimension. *)
Theorem optimal_dimensions_present platform spec :
  supported platform spec ->
  exists image video,
    hd_error (Images.dimensions (PlatformSpec.images spec)) = Some image /\
    hd_error (Videos.dimensions (PlatformSpec.videos spec)) = Some video /\
    getOptimalImageDimensions platform = Js.Normal (Some image) /\
    getOptimalVideoDimensions platform = Js.Normal (Some video) /\
    getOptimalAspectRatio platform
      = Js.Normal (Some (MediaDimension.aspectRatio image)).
Proof.
  intros Hs.
  unfold getOptimalAspectRatio, getOptimalImageDimensions,
    getOptimalVideoDimensions, firstDimension.
  rewrite (proj2 (getPlatformSpec_Own_iff _ _) Hs).
  apply supported_cases in Hs. simpl in Hs.
  decompose [or] Hs; try contradiction; subst;
    do 2 eexists; repeat split; reflexivity.
Qed.

Lemma optimal_dimensions_present_witness :
  getOptimalImageDimensions "TikTok"
    = Js.Normal (Some (dim "Story Carousel" 1080 1920 "9:16")) /\
  getOptimalAspectRatio "TikTok" = Js.Normal (Some "9:16").
Proof.
  destruct (optimal_dimensions_present "TikTok" tiktok eq_refl)
    as (image & video & Hi & _ & Himg & _ & Hratio).
  injection Hi as <-. split; assumption.
Defined.

(** X4. A string that is no property of the registry gets null from all
    three optimal-dimension queries, and a lower-case name inherited
    from [Object.prototype] makes them throw. *)
Theorem optimal_dimensions_absent platform :
  (notAProperty platform ->
   getOptimalImageDimensions platform = Js.Normal None /\
   getOptimalVideoDimensions platform = Js.Normal None /\
   getOptimalAspectRatio platform = Js.Normal None) /\
  (forall key,
     getProperty (Js.toLowerCase platform) = Some (Inherited key) ->
     getOptimalImageDimensions platform = Js.Throw (Js.TypeError "dimensions") /\
     getOptimalVideoDimensions platform = Js.Throw (Js.TypeError "dimensions") /\
     getOptimalAspectRatio platform = Js.Throw (Js.TypeError "dimensions")).
Proof.
  unfold notAProperty, getOptimalAspectRatio, getOptimalImageDimensions,
    getOptimalVideoDimensions, firstDimension, getPlatformSpec.
  split.
  - intros ->. repeat split.
  - intros key ->. repeat split.
Qed.

(* ===================================================================== *)
(** ** The registry against the media validators *)
(* ===================================================================== *)

Section RecommendedDimensions.

Context {fmt : NumberFormat}.

(** The aspect-ratio warning of a video is there exactly when the search
    for a matching entry fails. *)
Lemma validateVideo_aspect_warning
    platform spec width height durationSeconds fileSizeMB format :
  supported platform spec ->
  exists r,
    validateVideo platform width height durationSeconds fileSizeMB format
      = Js.Normal r /\
    (In (videoAspectWarning spec width height) (warnings r) <->
     Js.find (ratioMatches (width / height))
       (Videos.dimensions (PlatformSpec.videos spec)) = None).
Proof.
  intros Hs.
  destruct (validateVideo_supported platform spec width height
              durationSeconds fileSizeMB format Hs) as (r & Hr & _ & Hw & _).
  exists r. split; [exact Hr|].
  rewrite Hw, !in_app_iff, !In_when.
  destruct (Js.find _ _) as [m|].
  - split; [|discriminate].
    intros [[_ H]|[[]|[[_ H]|[_ H]]]]; exfalso; revert H;
      differ_at "Video is".
  - split; [reflexivity|]. intros _. right. left. now left.
Qed.

(** X5. Every recommended dimension passes the check it feeds: on a
    supported platform an image of a recommended size gets no warning at
    all, and a video of a recommended size gets no aspect-ratio
    warning, whatever the other arguments are. *)
Theorem recommended_dimensions_pass
    platform spec image video fileSizeMB durationSeconds format :
  supported platform spec ->
  In image (Images.dimensions (PlatformSpec.images spec)) ->
  In video (Videos.dimensions (PlatformSpec.videos spec)) ->
  (exists r,
     validateImage platform (MediaDimension.width image)
       (MediaDimension.height image) fileSizeMB format = Js.Normal r /\
     warnings r = []) /\
  (exists r,
     validateVideo platform (MediaDimension.width video)
       (MediaDimension.height video) durationSeconds fileSizeMB format
       = Js.Normal r /\
     ~ In (videoAspectWarning spec (MediaDimension.width video)
             (MediaDimension.height video)) (warnings r)).
Proof.
  intros Hs Hi Hv. split.
  - destruct (validateImage_supported platform spec
                (MediaDimension.width image) (MediaDimension.height image)
                fileSizeMB format Hs) as (r & Hr & _ & Hw & _).
    exists r. split; [exact Hr|]. rewrite Hw. clear Hw Hr Hv.
    apply supported_cases in Hs. simpl in Hs.
    decompose [or] Hs; try contradiction; subst; simpl in Hi;
      decompose [or] Hi; try contradiction; subst; vm_compute; reflexivity.
  - destruct (validateVideo_aspect_warning platform spec
                (MediaDimension.width video) (MediaDimension.height video)
                durationSeconds fileSizeMB format Hs) as (r & Hr & Hiff).
    exists r. split; [exact Hr|]. rewrite Hiff. clear Hiff Hr Hi.
    apply supported_cases in Hs. simpl in Hs.
    decompose [or] Hs; try contradiction; subst; simpl in Hv;
      decompose [or] Hv; try contradiction; subst;
      vm_compute; discriminate.
Qed.

End RecommendedDimensions.

Lemma recommended_dimensions_pass_witness :
  (exists r,
     validateImage (fmt := integralFormat) "instagram" 1080 1350 3 "png"
       = Js.Normal r /\ warnings r = []) /\
  (exists r,
     validateVideo (fmt := integralFormat) "instagram" 1080 1920 30 3 "png"
       = Js.Normal r /\
     ~ In (videoAspectWarning (fmt := integralFormat) instagram 1080 1920)
          (warnings r)).
Proof.
  apply (recommended_dimensions_pass (fmt := integralFormat)
           "instagram" instagram
           (dim "Portrait" 1080 1350 "4:5") (dim "Reel" 1080 1920 "9:16")
           3 30 "png").
  - reflexivity.
  - simpl. tauto.
  - simpl. tauto.
Defined.

(* ===================================================================== *)
(** ** Warnings of validateTextContent *)
(* ===================================================================== *)

Lemma registry_sweetSpot spec s :
  In spec [instagram; twitter; facebook; tiktok; linkedin] ->
  Text.sweetSpot (PlatformSpec.text spec) = Some s ->
  10 <= s <= Text.maxChars (PlatformSpec.text spec).
Proof.
  simpl. intros H.
  decompose [or] H; subst; try contradiction; cbn;
    intros E; try discriminate E; injection E as <-; lia.
Qed.

(** X6. On a supported platform [validateTextContent] gives at most one
    warning: the short-content one exactly for 1 to 9 characters, the
    sweet-spot one exactly when the platform has a sweet spot and the
    content is longer, never both; and content over the character limit
    of a platform with a sweet spot carries the sweet-spot warning next
    to the error. *)
Theorem validateTextContent_warnings platform spec content :
  supported platform spec ->
  let charCount := Js.length content in
  exists r,
    validateTextContent platform content = Js.Normal r /\
    (List.length (warnings r) <= 1)%nat /\
    (In (shortContentWarning charCount) (warnings r) <-> 0 < charCount < 10) /\
    (forall m, In m (warnings r) ->
       m = shortContentWarning charCount \/
       exists s, Text.sweetSpot (PlatformSpec.text spec) = Some s /\
                 m = sweetSpotWarning spec charCount s) /\
    (forall s, Text.sweetSpot (PlatformSpec.text spec) = Some s ->
       (In (sweetSpotWarning spec charCount s) (warnings r) <-> charCount > s) /\
       (errors r <> [] -> In (sweetSpotWarning spec charCount s) (warnings r))).
Proof.
  intros Hs charCount.
  destruct (validateTextContent_supported platform spec content Hs)
    as (r & Hr & He & _ & Hw & _).
  fold charCount in He, Hw.
  pose proof (registry_sweetSpot spec) as Hreg.
  specialize (fun s => Hreg s (supported_cases _ _ Hs)).
  exists r. split; [exact Hr|].
  assert (Hshort : (charCount <? 10) && (charCount >? 0) = true
                   <-> 0 < charCount < 10).
  { rewrite andb_true_iff, Z.ltb_lt, Z.gtb_gt. lia. }
  destruct (Text.sweetSpot (PlatformSpec.text spec)) as [s|].
  - specialize (Hreg s eq_refl).
    assert (Hsweet : negb (s =? 0) && (charCount >? s) = true <-> charCount > s).
    { rewrite andb_true_iff, negb_true_iff, Z.eqb_neq, Z.gtb_gt. lia. }
    assert (Hin1 : In (shortContentWarning charCount) (warnings r)
                   <-> 0 < charCount < 10).
    { rewrite Hw, in_app_iff, !In_when, Hshort. split; [|tauto].
      intros [[_ H]|[H _]]; [|exact H]. exfalso. revert H. differ_at "Content i". }
    assert (Hin2 : In (sweetSpotWarning spec charCount s) (warnings r)
                   <-> charCount > s).
    { rewrite Hw, in_app_iff, !In_when, Hsweet. split; [|tauto].
      intros [[H _]|[_ H]]; [exact H|]. exfalso. revert H. differ_at "Content i". }
    split; [|split; [exact Hin1|split]].
    + rewrite Hw.
      destruct (negb (s =? 0) && (charCount >? s)) eqn:B1;
        destruct ((charCount <? 10) && (charCount >? 0)) eqn:B2;
        cbn; lia.
    + intros m. rewrite Hw, in_app_iff, !In_when.
      intros [[_ <-]|[_ <-]]; [right; now exists s|now left].
    + intros s' [= <-]. split; [exact Hin2|].
      intros Herr. apply Hin2. rewrite He in Herr.
      destruct (Z.gtb_spec charCount (Text.maxChars (PlatformSpec.text spec)));
        [lia|contradiction].
  - rewrite Hw. cbn [app].
    split; [|split; [|split]].
    + destruct ((charCount <? 10) && (charCount >? 0)); cbn; lia.
    + rewrite In_when, Hshort. tauto.
    + intros m. rewrite In_when. intros [_ <-]. now left.
    + intros s' E. discriminate E.
Qed.

Lemma validateTextContent_warnings_witness :
  exists r,
    validateTextContent "facebook" "Hi there" = Js.Normal r /\
    (List.length (warnings r) <= 1)%nat /\
    In (shortContentWarning 8) (warnings r).
Proof.
  destruct (validateTextContent_warnings "facebook" facebook "Hi there" eq_refl)
    as (r & Hr & Hlen & Hshort & _).
  exists r. split; [exact Hr|]. split; [exact Hlen|].
  apply Hshort. vm_compute. split; reflexivity.
Defined.

(* ===================================================================== *)
(** ** Errors of validateHashtags *)
(* ===================================================================== *)

Lemma length_zero_iff (s : string) :
  (Js.length s =? 0) = true <-> s = EmptyString.
Proof.
  unfold Js.length. rewrite Z.eqb_eq. destruct s; simpl; split;
    try reflexivity; try discriminate; lia.
Qed.

Lemma hashtagErrors_nil_iff tag index :
  hashtagErrors tag index = [] <-> wellFormedTag tag.
Proof.
  unfold hashtagErrors, wellFormedTag. cbv zeta.
  pose proof (length_zero_iff (Js.stripLeadingHash tag)) as Hlen.
  destruct (Js.length (Js.stripLeadingHash tag) =? 0).
  - split; [discriminate|]. intros [H1 _]. exfalso. now apply H1, Hlen.
  - destruct (Js.includes " " (Js.stripLeadingHash tag)).
    + split; [discriminate|]. intros [_ H2]. discriminate H2.
    + split; [|reflexivity]. intros _. split; [|reflexivity].
      intros E. apply Hlen in E. discriminate E.
Qed.

Lemma allHashtagErrors_nil_iff tags : forall index,
  allHashtagErrors tags index = [] <-> Forall wellFormedTag tags.
Proof.
  induction tags as [|tag rest IH]; intros index; simpl.
  - split; [constructor|reflexivity].
  - split.
    + intros H. apply app_eq_nil in H. destruct H as [H1 H2].
      constructor; [now apply (hashtagErrors_nil_iff tag index)|now apply (IH (index + 1))].
    + intros H. inversion H as [|? ? H1 H2]; subst.
      apply (hashtagErrors_nil_iff tag index) in H1. apply (IH (index + 1)) in H2.
      now rewrite H1, H2.
Qed.

(** The flag of a result whose errors are the count error followed by
    the per-tag errors. *)
Lemma hashtag_flag_iff (r : ValidationResult) (count max : Z)
    (msg : string) (hashtags : list string) :
  errors r = ((if count >? max then [msg] else [])
              ++ allHashtagErrors hashtags 0)%list ->
  valid r = Nat.eqb (List.length (errors r)) 0 ->
  (valid r = true <-> count <= max /\ Forall wellFormedTag hashtags).
Proof.
  intros He Hv.
  rewrite Hv, Nat.eqb_eq, length_zero_iff_nil, He.
  rewrite <- (allHashtagErrors_nil_iff hashtags 0).
  destruct (Z.gtb_spec count max) as [Hgt|Hle]; cbn [app].
  - split; [discriminate|]. intros [H _]. lia.
  - split; [intros H; split; [lia|exact H]|now intros [_ H]].
Qed.

(** X7. On a supported platform a hashtag list is valid exactly when it
    has at most [hashtags.max] tags and every tag, once its leading hash
    sign is removed, is non-empty and free of spaces; the length of a
    tag and the recommended count play no part. *)
Theorem validateHashtags_valid_iff platform spec hashtags :
  supported platform spec ->
  exists r,
    validateHashtags platform hashtags = Js.Normal r /\
    (valid r = true <->
     Z.of_nat (List.length hashtags) <= Hashtags.max (PlatformSpec.hashtags spec)
     /\ Forall wellFormedTag hashtags).
Proof.
  intros Hs.
  destruct (validateHashtags_supported platform spec hashtags Hs)
    as (r & Hr & He & _ & Hv & _).
  exists r. split; [exact Hr|].
  exact (hashtag_flag_iff r _ _ _ hashtags He Hv).
Qed.

Lemma validateHashtags_valid_iff_witness :
  exists r,
    validateHashtags "linkedin" ["#career"; "hiring"; manyA 40] = Js.Normal r /\
    valid r = true.
Proof.
  destruct (validateHashtags_valid_iff "linkedin" linkedin
              ["#career"; "hiring"; manyA 40] eq_refl) as (r & Hr & Hiff).
  exists r. split; [exact Hr|]. apply Hiff. split.
  - vm_compute. discriminate.
  - repeat constructor; vm_compute; discriminate.
Defined.

Lemma hashtagErrors_In tag index m :
  In m (hashtagErrors tag index) <->
  (Js.stripLeadingHash tag = EmptyString /\ m = emptyHashtagError index) \/
  (Js.includes " " (Js.stripLeadingHash tag) = true /\ m = spacesError tag).
Proof.
  unfold hashtagErrors. cbv zeta.
  rewrite in_app_iff, !In_when, length_zero_iff.
  intuition congruence.
Qed.

Lemma allHashtagErrors_In tags : forall index m,
  In m (allHashtagErrors tags index) <->
  (exists i tag, nth_error tags i = Some tag /\
                 Js.stripLeadingHash tag = EmptyString /\
                 m = emptyHashtagError (index + Z.of_nat i)) \/
  (exists tag, In tag tags /\
               Js.includes " " (Js.stripLeadingHash tag) = true /\
               m = spacesError tag).
Proof.
  induction tags as [|tag rest IH]; intros index m; simpl.
  - split; [tauto|].
    intros [(i & t & H & _)|(t & [] & _)]. destruct i; discriminate H.
  - rewrite in_app_iff, hashtagErrors_In, (IH (index + 1)). split.
    + intros [[[He ->]|[Hs ->]]|[(i & t & Hn & He & ->)|(t & Hin & Hs & ->)]].
      * left. exists 0%nat, tag. repeat split; auto. f_equal. lia.
      * right. exists tag. auto.
      * left. exists (S i), t. repeat split; auto. f_equal. lia.
      * right. exists t. auto.
    + intros [(i & t & Hn & He & ->)|(t & [<-|Hin] & Hs & ->)].
      * destruct i as [|i]; simpl in Hn.
        -- injection Hn as <-. left. left. split; auto. f_equal. lia.
        -- right. left. exists i, t. repeat split; auto. f_equal. lia.
      * left. right. auto.
      * right. right. exists t. auto.
Qed.

(** X8. On a supported platform the errors of [validateHashtags] are
    exactly these: the over-limit error when the count exceeds the
    maximum; for each tag that is empty once its hash sign is removed,
    the error naming its position counted from 1; and for each tag with
    a space, the error quoting the tag as it was given. *)
Theorem validateHashtags_errors platform spec hashtags :
  supported platform spec ->
  let count := Z.of_nat (List.length hashtags) in
  exists r,
    validateHashtags platform hashtags = Js.Normal r /\
    forall m,
      In m (errors r) <->
      (count > Hashtags.max (PlatformSpec.hashtags spec) /\
       m = tooManyHashtagsError spec count) \/
      (exists i tag, nth_error hashtags i = Some tag /\
                     Js.stripLeadingHash tag = EmptyString /\
                     m = "Hashtag " ++ Js.showZ (Z.of_nat i + 1) ++ " is empty") \/
      (exists tag, In tag hashtags /\
                   Js.includes " " (Js.stripLeadingHash tag) = true /\
                   m = spacesError tag).
Proof.
  intros Hs count.
  destruct (validateHashtags_supported platform spec hashtags Hs)
    as (r & Hr & He & _).
  fold count in He.
  exists r. split; [exact Hr|]. intros m.
  rewrite He, in_app_iff, In_when, Z.gtb_gt, (allHashtagErrors_In hashtags 0).
  unfold emptyHashtagError. cbn [Z.add].
  split.
  - intros [[H <-]|[H|H]]; auto.
  - intros [[H ->]|[H|H]]; auto.
Qed.

Lemma validateHashtags_errors_witness :
  exists r,
    validateHashtags "facebook" ["news"; "#"; "two words"] = Js.Normal r /\
    In "Hashtag 2 is empty" (errors r) /\
    In (spacesError "two words") (errors r).
Proof.
  destruct (validateHashtags_errors "facebook" facebook
              ["news"; "#"; "two words"] eq_refl) as (r & Hr & Hiff).
  exists r. split; [exact Hr|]. split; apply Hiff.
  - right. left. exists 1%nat, "#". repeat split.
  - right. right. exists "two words". repeat split. simpl. tauto.
Defined.

(** X9. An empty hashtag list is valid on every supported platform, with
    no error; it draws the no-hashtags warning, and nothing else, on
    Instagram, TikTok and Twitter, and no warning at all on Facebook and
    LinkedIn. *)
Theorem validateHashtags_empty_list platform spec :
  supported platform spec ->
  exists r,
    validateHashtags platform [] = Js.Normal r /\
    valid r = true /\
    errors r = [] /\
    (In spec [instagram; tiktok; twitter] -> warnings r = [noHashtagsWarning spec]) /\
    (In spec [facebook; linkedin] -> warnings r = []).
Proof.
  intros Hs.
  destruct (validateHashtags_supported platform spec [] Hs)
    as (r & Hr & He & Hw & Hv & _).
  exists r. split; [exact Hr|].
  apply ownProperty_cases in Hs.
  assert (E : errors r = []).
  { rewrite He. decompose [and or] Hs; subst; reflexivity. }
  split; [now rewrite Hv, E|]. split; [exact E|].
  rewrite Hw.
  decompose [and or] Hs; subst;
    match goal with H : Js.toLowerCase _ = _ |- _ => rewrite H end;
    split; intros Hin; simpl in Hin;
    decompose [or] Hin; try contradiction; try discriminate; reflexivity.
Qed.

Lemma validateHashtags_empty_list_witness :
  (exists r, validateHashtags "TikTok" [] = Js.Normal r /\
             valid r = true /\ warnings r = [noHashtagsWarning tiktok]) /\
  (exists r, validateHashtags "LinkedIn" [] = Js.Normal r /\
             valid r = true /\ warnings r = []).
Proof.
  split.
  - destruct (validateHashtags_empty_list "TikTok" tiktok eq_refl)
      as (r & Hr & Hv & _ & Hw & _).
    exists r. repeat split; auto. apply Hw. simpl. tauto.
  - destruct (validateHashtags_empty_list "LinkedIn" linkedin eq_refl)
      as (r & Hr & Hv & _ & _ & Hw).
    exists r. repeat split; auto. apply Hw. simpl. tauto.
Defined.

(* ===================================================================== *)
(** ** Formats and NaN in the media validators *)
(* ===================================================================== *)

Lemma upper_ascii_idempotent (c : ascii) :
  Js.upper_ascii (Js.upper_ascii c) = Js.upper_ascii c.
Proof.
  destruct c as [[] [] [] [] [] [] [] []]; reflexivity.
Qed.

Lemma toUpperCase_idempotent (s : string) :
  Js.toUpperCase (Js.toUpperCase s) = Js.toUpperCase s.
Proof.
  induction s as [|c r IH]; simpl.
  - reflexivity.
  - now rewrite upper_ascii_idempotent, IH.
Qed.

(** A comparison with NaN on either side is false. *)
Lemma gt_nan_l x : Js.gt PrimFloat.nan x = false.
Proof.
  unfold Js.gt. rewrite ltb_spec. unfold SFltb.
  change (Prim2SF PrimFloat.nan) with S754_nan.
  now destruct (Prim2SF x).
Qed.

Lemma gt_nan_r x : Js.gt x PrimFloat.nan = false.
Proof.
  unfold Js.gt. rewrite ltb_spec. reflexivity.
Qed.

Section FormatsAndNaN.

Context {fmt : NumberFormat}.

(** X10. The format argument of both media validators is
    case-insensitive, and [validateImage] treats every spelling of JPEG
    as JPG. *)
Theorem media_format_normalisation
    platform width height durationSeconds fileSizeMB format :
  validateImage platform width height fileSizeMB (Js.toUpperCase format)
    = validateImage platform width height fileSizeMB format /\
  validateVideo platform width height durationSeconds fileSizeMB
      (Js.toUpperCase format)
    = validateVideo platform width height durationSeconds fileSizeMB format /\
  (Js.toUpperCase format = "JPEG" ->
   validateImage platform width height fileSizeMB format
     = validateImage platform width height fileSizeMB "JPG").
Proof.
  unfold validateImage, validateVideo.
  rewrite toUpperCase_idempotent.
  repeat split. intros ->. reflexivity.
Qed.

(** X11. A NaN file size or duration is never reported: on a supported
    platform, with NaN for both, [validateVideo] has no error beyond
    the format one and neither the short-video nor a soft duration
    warning, and [validateImage] has no error beyond the format one. *)
Theorem nan_passes_the_limits platform spec width height format :
  supported platform spec ->
  (exists r,
     validateVideo platform width height PrimFloat.nan PrimFloat.nan format
       = Js.Normal r /\
     errors r =
       (if negb (Js.arrayIncludes (Videos.formats (PlatformSpec.videos spec))
                   (Js.toUpperCase format))
        then [videoFormatError spec] else []) /\
     (forall m, In m (warnings r) -> m = videoAspectWarning spec width height)) /\
  (exists r,
     validateImage platform width height PrimFloat.nan format = Js.Normal r /\
     errors r =
       (if negb (Js.arrayIncludes (Images.formats (PlatformSpec.images spec))
                   (Js.replace "JPEG" "JPG" (Js.toUpperCase format)))
        then [imageFormatError spec] else [])).
Proof.
  intros Hs. split.
  - destruct (validateVideo_supported platform spec width height
                PrimFloat.nan PrimFloat.nan format Hs)
      as (r & Hr & He & Hw & _).
    exists r. split; [exact Hr|].
    rewrite !gt_nan_l in He, Hw. rewrite !andb_false_r in Hw.
    change (Js.lt PrimFloat.nan 3) with false in Hw.
    split.
    + rewrite He. now rewrite !app_nil_r.
    + intros m. rewrite Hw. cbn [app]. rewrite !app_nil_r.
      destruct (Js.find _ _); simpl; [tauto|]. intros [<-|[]]. reflexivity.
  - destruct (validateImage_supported platform spec width height
                PrimFloat.nan format Hs) as (r & Hr & He & _).
    exists r. split; [exact Hr|].
    rewrite gt_nan_l in He. rewrite He. now rewrite app_nil_r.
Qed.

End FormatsAndNaN.

Lemma nan_passes_the_limits_witness :
  exists r,
    validateVideo (fmt := integralFormat) "twitter" 1280 720
      PrimFloat.nan PrimFloat.nan "mov" = Js.Normal r /\
    errors r = [].
Proof.
  destruct (nan_passes_the_limits (fmt := integralFormat) "twitter" twitter
              1280 720 "mov" eq_refl) as ((r & Hr & He & _) & _).
  exists r. split; [exact Hr|]. rewrite He. reflexivity.
Defined.

(* ===================================================================== *)
(** ** validatePost on a supported platform *)
(* ===================================================================== *)

(** X12. On a supported platform [validatePost] returns; the post is
    valid exactly when the content is within the character limit, the
    hashtags are at most [hashtags.max] and each is well formed; and its
    [stats] holds the four keys of the two sub-results, none lost in the
    merge, and no other key. *)
Theorem validatePost_supported platform spec content hashtags :
  supported platform spec ->
  exists r,
    validatePost platform content hashtags = Js.Normal r /\
    (valid r = true <->
     Js.length content <= Text.maxChars (PlatformSpec.text spec) /\
     Z.of_nat (List.length hashtags) <= Hashtags.max (PlatformSpec.hashtags spec) /\
     Forall wellFormedTag hashtags) /\
    stats r =
      {| Stats.charCount := Some (Js.length content);
         Stats.charLimit := Some (Text.maxChars (PlatformSpec.text spec));
         Stats.fileSizeMB := None; Stats.maxSizeMB := None;
         Stats.hashtagCount := Some (Z.of_nat (List.length hashtags));
         Stats.hashtagLimit := Some (Hashtags.max (PlatformSpec.hashtags spec));
         Stats.width := None; Stats.height := None;
         Stats.durationSeconds := None; Stats.maxDurationSeconds := None |}.
Proof.
  intros Hs.
  destruct (validateTextContent_supported platform spec content Hs)
    as (t & Ht & _ & Htv & _).
  destruct (validateHashtags_supported platform spec hashtags Hs)
    as (h & Hh & Hhe & _ & Hhf & _).
  pose proof (hashtag_flag_iff h _ _ _ hashtags Hhe Hhf) as Hhv.
  unfold validatePost. rewrite Ht, Hh. cbn [Js.bind].
  eexists. split; [reflexivity|]. cbn [valid stats]. split.
  - rewrite andb_true_iff, Hhv, Htv, negb_true_iff.
    destruct (Z.gtb_spec (Js.length content)
                (Text.maxChars (PlatformSpec.text spec))); split;
      try (intros [? ?]); try discriminate; try lia; tauto.
  - unfold validateTextContent in Ht. unfold validateHashtags in Hh.
    rewrite (supported_getProperty _ _ Hs) in Ht, Hh.
    injection Ht as <-. injection Hh as <-. reflexivity.
Qed.

Lemma validatePost_supported_witness :
  exists r,
    validatePost "Twitter" "Launch day" ["#launch"; "news"] = Js.Normal r /\
    valid r = true /\
    Stats.charCount (stats r) = Some 10 /\
    Stats.hashtagCount (stats r) = Some 2.
Proof.
  destruct (validatePost_supported "Twitter" twitter "Launch day"
              ["#launch"; "news"] eq_refl) as (r & Hr & Hv & Hst).
  exists r. split; [exact Hr|]. split.
  - apply Hv. split; [vm_compute; discriminate|]. split.
    + vm_compute. discriminate.
    + repeat constructor; vm_compute; discriminate.
  - rewrite Hst. split; reflexivity.
Defined.

(* ===================================================================== *)
(** ** VeoService *)
(* ===================================================================== *)

Section VeoServiceFacts.

Context {fmt : NumberFormat}.

(** What [validateForPlatform] resolves to on a supported platform. *)
Lemma validateForPlatform_supported platform spec videoSizeMB durationSeconds :
  supported platform spec ->
  let videos := PlatformSpec.videos spec in
  exists c,
    VeoService.validateForPlatform videoSizeMB durationSeconds platform
      = Js.Normal c /\
    VeoService.errors c =
      ((if Js.gt videoSizeMB (Videos.maxSizeMB videos)
        then [VeoService.sizeError spec videoSizeMB] else [])
       ++ (if Js.gt durationSeconds (Videos.maxDurationSeconds videos)
           then [VeoService.durationError spec durationSeconds] else []))%list /\
    VeoService.valid c
      = negb (Js.gt videoSizeMB (Videos.maxSizeMB videos))
        && negb (Js.gt durationSeconds (Videos.maxDurationSeconds videos)).
Proof.
  intros Hs videos.
  unfold VeoService.validateForPlatform.
  rewrite (proj2 (getPlatformSpec_Own_iff _ _) Hs). fold videos.
  eexists. split; [reflexivity|].
  cbn [VeoService.errors VeoService.valid].
  destruct (Js.gt videoSizeMB _), (Js.gt durationSeconds _); split; reflexivity.
Qed.

(** X13. The platform check of the video service and [validateVideo]
    agree on a supported platform: the service accepts exactly when
    neither the size nor the duration exceeds the limit, which is when
    its error list is empty, and [validateVideo] accepts exactly when
    the service does and the format is supported. *)
Theorem validateForPlatform_agrees_with_validateVideo
    platform spec width height durationSeconds fileSizeMB format :
  supported platform spec ->
  exists c r,
    VeoService.validateForPlatform fileSizeMB durationSeconds platform
      = Js.Normal c /\
    validateVideo platform width height durationSeconds fileSizeMB format
      = Js.Normal r /\
    (VeoService.valid c = true <->
     Js.gt fileSizeMB (Videos.maxSizeMB (PlatformSpec.videos spec)) = false /\
     Js.gt durationSeconds
       (Videos.maxDurationSeconds (PlatformSpec.videos spec)) = false) /\
    (VeoService.valid c = true <-> VeoService.errors c = []) /\
    (valid r = true <->
     Js.arrayIncludes (Videos.formats (PlatformSpec.videos spec))
       (Js.toUpperCase format) = true /\
     VeoService.valid c = true).
Proof.
  intros Hs.
  destruct (validateForPlatform_supported platform spec fileSizeMB
              durationSeconds Hs) as (c & Hc & Hce & Hcv).
  destruct (validateVideo_supported platform spec width height durationSeconds
              fileSizeMB format Hs) as (r & Hr & He & _ & Hv).
  exists c, r. split; [exact Hc|]. split; [exact Hr|].
  rewrite Hv, He, Hcv, Hce.
  destruct (Js.arrayIncludes _ _), (Js.gt fileSizeMB _),
    (Js.gt durationSeconds _); cbn; intuition discriminate.
Qed.

(** X14. The default video settings of a supported platform fit its
    registry entry: the default aspect ratio is the label of one of the
    recommended video dimensions, and the default duration passes the
    service check (for a size within the limit) and draws neither the
    duration error nor a soft duration warning from [validateVideo]. *)
Theorem default_video_settings_fit
    platform spec width height fileSizeMB format :
  supported platform spec ->
  Js.gt fileSizeMB (Videos.maxSizeMB (PlatformSpec.videos spec)) = false ->
  exists settings c r,
    VeoService.getPlatformVideoSettings platform = OwnValue settings /\
    (exists d, In d (Videos.dimensions (PlatformSpec.videos spec)) /\
               MediaDimension.aspectRatio d = VeoService.aspectRatio settings) /\
    VeoService.validateForPlatform fileSizeMB (VeoService.duration settings)
      platform = Js.Normal c /\
    VeoService.valid c = true /\
    validateVideo platform width height (VeoService.duration settings)
      fileSizeMB format = Js.Normal r /\
    ~ In (durationError spec (VeoService.duration settings)) (errors r) /\
    ~ In reelsWarning (warnings r) /\
    ~ In tiktokLengthWarning (warnings r).
Proof.
  intros Hs Hsize.
  assert (Hd : exists settings,
             VeoService.getPlatformVideoSettings platform = OwnValue settings /\
             (exists d, In d (Videos.dimensions (PlatformSpec.videos spec)) /\
                        MediaDimension.aspectRatio d
                        = VeoService.aspectRatio settings) /\
             Js.gt (VeoService.duration settings)
               (Videos.maxDurationSeconds (PlatformSpec.videos spec)) = false /\
             Js.gt (VeoService.duration settings) 90 = false /\
             (Js.toLowerCase platform = "tiktok" ->
              Js.gt (VeoService.duration settings) 60 = false)).
  { unfold VeoService.getPlatformVideoSettings.
    pose proof (ownProperty_cases _ _ Hs) as Hc.
    decompose [and or] Hc; subst;
      match goal with H : Js.toLowerCase _ = _ |- _ => rewrite H end;
      eexists; (split; [reflexivity|]);
      (split;
         [simpl;
          first [ eexists; split; [left; reflexivity|reflexivity]
                | eexists; split; [right; left; reflexivity|reflexivity] ]|]);
      repeat split; try reflexivity; intros; discriminate. }
  destruct Hd as (settings & Hset & Hratio & Hmax & H90 & H60).
  destruct (validateForPlatform_supported platform spec fileSizeMB
              (VeoService.duration settings) Hs) as (c & Hc & _ & Hcv).
  destruct (duration_checks platform spec width height
              (VeoService.duration settings) fileSizeMB format Hs)
    as (r & Hr & He & Hreels & Htik).
  exists settings, c, r.
  split; [exact Hset|]. split; [exact Hratio|]. split; [exact Hc|].
  split; [now rewrite Hcv, Hsize, Hmax|]. split; [exact Hr|].
  split; [|split].
  - rewrite He, Hmax. discriminate.
  - rewrite Hreels, H90. intros [_ H]. discriminate H.
  - rewrite Htik. intros [Ht H]. rewrite (H60 Ht) in H. discriminate H.
Qed.

End VeoServiceFacts.

Lemma default_video_settings_fit_witness :
  exists settings c,
    VeoService.getPlatformVideoSettings "LinkedIn" = OwnValue settings /\
    VeoService.duration settings = 90%float /\
    VeoService.validateForPlatform (fmt := integralFormat) 120 90 "LinkedIn"
      = Js.Normal c /\
    VeoService.valid c = true.
Proof.
  destruct (default_video_settings_fit (fmt := integralFormat)
              "LinkedIn" linkedin 1280 720 120 "mp4" eq_refl eq_refl)
    as (settings & c & r & Hset & _ & Hc & Hv & _).
  injection Hset as <-.
  exists {| VeoService.aspectRatio := "16:9"; VeoService.duration := 90 |}, c.
  repeat split; assumption.
Defined.

Lemma validateForPlatform_agrees_with_validateVideo_witness :
  exists c r,
    VeoService.validateForPlatform (fmt := integralFormat) 20 30 "instagram"
      = Js.Normal c /\
    validateVideo (fmt := integralFormat) "instagram" 1080 1920 30 20 "mp4"
      = Js.Normal r /\
    VeoService.valid c = false /\ valid r = false.
Proof.
  destruct (validateForPlatform_agrees_with_validateVideo
              (fmt := integralFormat) "instagram" instagram 1080 1920 30 20
              "mp4" eq_refl) as (c & r & Hc & Hr & Hcv & _ & Hrv).
  exists c, r. split; [exact Hc|]. split; [exact Hr|].
  assert (Hf : VeoService.valid c = false).
  { destruct (VeoService.valid c); [|reflexivity].
    destruct (proj1 Hcv eq_refl) as [H _]. vm_compute in H. discriminate H. }
  split; [exact Hf|].
  destruct (valid r); [|reflexivity].
  destruct (proj1 Hrv eq_refl) as [_ H]. congruence.
Defined.

(* ===================================================================== *)
(** ** ImagenService *)
(* ===================================================================== *)

Lemma ownValue_In {A} key (o : list (string * A)) v :
  ownValue key o = Some v -> In (key, v) o.
Proof.
  induction o as [|[k a] r IH]; cbn [ownValue]; [discriminate|].
  destruct (String.eqb_spec k key) as [->|_].
  - intros [= ->]. now left.
  - intros H. right. auto.
Qed.


(** Every supported ratio is returned unchanged. *)
Lemma validateAspectRatio_fixed r :
  In r ImagenService.VALID_ASPECT_RATIOS ->
  ImagenService.validateAspectRatio r = OwnValue r.
Proof.
  simpl. intros H. decompose [or] H; try contradiction; subst; reflexivity.
Qed.

(** X15. Whenever [validateAspectRatio] returns a string, that string is
    one of the five ratios Imagen supports, and validating it again
    returns it unchanged. *)
Theorem validateAspectRatio_supported_ratio aspectRatio r :
  ImagenService.validateAspectRatio aspectRatio = OwnValue r ->
  In r ImagenService.VALID_ASPECT_RATIOS /\
  ImagenService.validateAspectRatio r = OwnValue r.
Proof.
  intros H.
  assert (Hin : In r ImagenService.VALID_ASPECT_RATIOS).
  { unfold ImagenService.validateAspectRatio in H. cbv zeta in H.
    destruct (Js.arrayIncludes _ (trim aspectRatio)) eqn:E.
    - injection H as <-. now apply arrayIncludes_In.
    - unfold objectGet in H.
      destruct (ownValue (trim aspectRatio) ImagenService.fallbackMap)
        as [v|] eqn:O.
      + injection H as <-. apply ownValue_In in O. simpl in O |- *.
        decompose [or] O; try contradiction;
          match goal with E : (_, _) = (_, _) |- _ => injection E as _ <- end;
          tauto.
      + destruct (Js.arrayIncludes OBJECT_PROTOTYPE _); [discriminate|].
        injection H as <-. simpl. tauto. }
  split; [exact Hin|now apply validateAspectRatio_fixed].
Qed.

Lemma validateAspectRatio_supported_ratio_witness :
  In "3:4" ImagenService.VALID_ASPECT_RATIOS /\
  ImagenService.validateAspectRatio "3:4" = OwnValue "3:4".
Proof.
  apply (validateAspectRatio_supported_ratio "  4:5 " "3:4"). reflexivity.
Defined.


(** X17. For a supported platform [getPlatformAspectRatio] returns one
    of the five ratios Imagen supports, which [validateAspectRatio]
    then leaves unchanged; for a string that is no property of the
    registry it returns the default 1:1. *)
Theorem getPlatformAspectRatio_supported platform :
  (forall spec, supported platform spec ->
     exists r,
       ImagenService.getPlatformAspectRatio platform = OwnValue r /\
       In r ImagenService.VALID_ASPECT_RATIOS /\
       ImagenService.validateAspectRatio r = OwnValue r) /\
  (notAProperty platform ->
   ImagenService.getPlatformAspectRatio platform = OwnValue "1:1").
Proof.
  unfold ImagenService.getPlatformAspectRatio. split.
  - intros spec Hs.
    rewrite (proj2 (getPlatformSpec_Own_iff _ _) Hs).
    apply ownProperty_cases in Hs.
    decompose [and or] Hs; subst;
      match goal with H : Js.toLowerCase _ = _ |- _ => rewrite H end;
      eexists; (split; [reflexivity|]); (split; [simpl; tauto|reflexivity]).
  - intros H. now rewrite (getPlatformSpec_absent _ H).
Qed.

(* ===================================================================== *)
(** ** The validation route *)
(* ===================================================================== *)




(* ===================================================================== *)
(** ** Warnings of validateHashtags *)
(* ===================================================================== *)

Lemma allHashtagWarnings_In tags m :
  In m (allHashtagWarnings tags) <->
  exists tag, In tag tags /\
              Js.length (Js.stripLeadingHash tag) > 30 /\
              m = longHashtagWarning tag (Js.length (Js.stripLeadingHash tag)).
Proof.
  induction tags as [|tag rest IH]; simpl.
  - split; [tauto|]. intros (t & [] & _).
  - rewrite in_app_iff, IH. unfold hashtagWarnings. cbv zeta.
    rewrite In_when, Z.gtb_gt. split.
    + intros [[H <-]|(t & Hin & H & ->)]; [exists tag|exists t]; auto.
    + intros (t & [<-|Hin] & H & ->); [left; auto|right; exists t; auto].
Qed.

(** X20. On a supported platform the warnings of [validateHashtags] are
    exactly these: the over-recommended warning when the count exceeds
    the recommended one; for each tag longer than 30 characters once its
    hash sign is removed, the warning quoting the tag as given and that
    length; and the no-hashtags warning when the list is empty and the
    platform is Instagram, TikTok or Twitter. *)
Theorem validateHashtags_warnings platform spec hashtags :
  supported platform spec ->
  let count := Z.of_nat (List.length hashtags) in
  exists r,
    validateHashtags platform hashtags = Js.Normal r /\
    forall m,
      In m (warnings r) <->
      (count > Hashtags.recommended (PlatformSpec.hashtags spec) /\
       m = overRecommendedWarning spec count) \/
      (exists tag, In tag hashtags /\
                   Js.length (Js.stripLeadingHash tag) > 30 /\
                   m = longHashtagWarning tag
                         (Js.length (Js.stripLeadingHash tag))) \/
      (hashtags = [] /\ In spec [instagram; tiktok; twitter] /\
       m = noHashtagsWarning spec).
Proof.
  intros Hs count.
  destruct (validateHashtags_supported platform spec hashtags Hs)
    as (r & Hr & _ & Hw & _).
  fold count in Hw.
  exists r. split; [exact Hr|]. intros m.
  rewrite Hw, !in_app_iff, !In_when, Z.gtb_gt, allHashtagWarnings_In.
  assert (Hnone : (count =? 0) &&
                  Js.arrayIncludes ["instagram"; "tiktok"; "twitter"]
                    (Js.toLowerCase platform) = true
                  <-> hashtags = [] /\ In spec [instagram; tiktok; twitter]).
  { rewrite andb_true_iff, Z.eqb_eq. unfold count.
    assert (Hz : Z.of_nat (List.length hashtags) = 0 <-> hashtags = [])
      by (destruct hashtags; simpl; split; try reflexivity; try discriminate; lia).
    rewrite Hz. apply ownProperty_cases in Hs.
    decompose [and or] Hs; subst;
      match goal with H : Js.toLowerCase _ = _ |- _ => rewrite H end;
      simpl; intuition discriminate. }
  rewrite Hnone. intuition (subst; auto).
Qed.

Lemma validateHashtags_warnings_witness :
  exists r,
    validateHashtags "tiktok" ["#" ++ manyA 31] = Js.Normal r /\
    In (longHashtagWarning ("#" ++ manyA 31) 31) (warnings r).
Proof.
  destruct (validateHashtags_warnings "tiktok" tiktok ["#" ++ manyA 31] eq_refl)
    as (r & Hr & Hiff).
  exists r. split; [exact Hr|]. apply Hiff. right. left.
  exists ("#" ++ manyA 31). split; [now left|]. split; reflexivity.
Defined.

(* ===================================================================== *)
(** ** The hashtag overflow step *)
(* ===================================================================== *)

Lemma firstn_Forall {A} (P : A -> Prop) n xs :
  Forall P xs -> Forall P (firstn n xs).
Proof.
  intros H. revert n. induction H as [|x xs Hx _ IH]; intros [|n]; simpl;
    constructor; auto.
Qed.

(** X21. After the overflow step of the generation route the hashtags
    are a prefix of the generated ones, at most [hashtags.max] of them,
    unchanged when they were within the limit; so [validateHashtags]
    never reports too many hashtags on them, and accepts them exactly
    when each kept tag is well formed. *)
Theorem keptHashtags_within_limit platform spec hashtags :
  supported platform spec ->
  let kept := keptHashtags spec hashtags in
  (exists dropped, hashtags = (kept ++ dropped)%list) /\
  Z.of_nat (List.length kept) <= Hashtags.max (PlatformSpec.hashtags spec) /\
  (Z.of_nat (List.length hashtags) <= Hashtags.max (PlatformSpec.hashtags spec) ->
   kept = hashtags) /\
  exists r,
    validateHashtags platform kept = Js.Normal r /\
    ~ In (tooManyHashtagsError spec (Z.of_nat (List.length kept))) (errors r) /\
    (valid r = true <-> Forall wellFormedTag kept).
Proof.
  intros Hs kept.
  destruct (registry_limits spec (supported_cases _ _ Hs)) as (Hrec & _).
  assert (Hmax : 0 <= Hashtags.max (PlatformSpec.hashtags spec)).
  { pose proof (supported_cases _ _ Hs) as Hc. simpl in Hc.
    decompose [or] Hc; try contradiction; subst; cbn; lia. }
  assert (Hlen : Z.of_nat (List.length kept)
                 <= Hashtags.max (PlatformSpec.hashtags spec)).
  { unfold kept, keptHashtags, sliceFromStart. cbv zeta.
    destruct (Z.gtb_spec (Z.of_nat (List.length hashtags))
                (Hashtags.max (PlatformSpec.hashtags spec))); [|assumption].
    rewrite length_firstn. lia. }
  split; [|split; [exact Hlen|split]].
  - unfold kept, keptHashtags, sliceFromStart. cbv zeta.
    destruct (_ >? _).
    + eexists. symmetry. apply firstn_skipn.
    + exists []. now rewrite app_nil_r.
  - intros H. unfold kept, keptHashtags. cbv zeta.
    destruct (Z.gtb_spec (Z.of_nat (List.length hashtags))
                (Hashtags.max (PlatformSpec.hashtags spec))); [lia|reflexivity].
  - destruct (validateHashtags_supported platform spec kept Hs)
      as (r & Hr & He & _ & Hv & _).
    exists r. split; [exact Hr|].
    pose proof (hashtag_flag_iff r _ _ _ kept He Hv) as Hflag.
    split; [|rewrite Hflag; tauto].
    rewrite He, in_app_iff, In_when, Z.gtb_gt.
    intros [[H _]|H]; [lia|].
    apply allHashtagErrors_prefix in H. discriminate H.
Qed.

Lemma keptHashtags_within_limit_witness :
  keptHashtags instagram ["#a"; "#b"; "#c"; "#d"; "#e"; "#f"; "#g"]
    = ["#a"; "#b"; "#c"; "#d"; "#e"] /\
  exists r,
    validateHashtags "instagram"
      (keptHashtags instagram ["#a"; "#b"; "#c"; "#d"; "#e"; "#f"; "#g"])
      = Js.Normal r /\
    valid r = true.
Proof.
  split; [reflexivity|].
  destruct (keptHashtags_within_limit "instagram" instagram
              ["#a"; "#b"; "#c"; "#d"; "#e"; "#f"; "#g"] eq_refl)
    as (_ & _ & _ & r & Hr & _ & Hv).
  exists r. split; [exact Hr|]. apply Hv.
  repeat constructor; vm_compute; discriminate.
Defined.

(* ===================================================================== *)
(** ** Size and duration warnings of the media validators *)
(* ===================================================================== *)

Section SizeWarnings.

Context {fmt : NumberFormat}.

(** X22. On a supported platform [validateImage] warns about a small
    width exactly when the width is below half the smallest recommended
    width, which is 540 pixels on Instagram, TikTok and LinkedIn and 600
    on Twitter and Facebook; and [validateVideo] warns about a very
    short video exactly when the duration is below 3 seconds, negative
    durations included. *)
Theorem media_size_warnings
    platform spec width height durationSeconds fileSizeMB format :
  supported platform spec ->
  let minRecommendedWidth :=
    Js.mathMin (map MediaDimension.width
                  (Images.dimensions (PlatformSpec.images spec))) in
  ((minRecommendedWidth * 0.5)%float
   = (if existsb (String.eqb (PlatformSpec.name spec))
           ["Instagram"; "TikTok"; "LinkedIn"]
      then 540 else 600)%float) /\
  (exists r,
     validateImage platform width height fileSizeMB format = Js.Normal r /\
     (In (smallWidthWarning spec width minRecommendedWidth) (warnings r) <->
      Js.lt width (minRecommendedWidth * 0.5) = true)) /\
  (exists r,
     validateVideo platform width height durationSeconds fileSizeMB format
       = Js.Normal r /\
     (In (shortVideoWarning durationSeconds) (warnings r) <->
      Js.lt durationSeconds 3 = true)).
Proof.
  intros Hs minRecommendedWidth. split; [|split].
  - unfold minRecommendedWidth. apply supported_cases in Hs. simpl in Hs.
    decompose [or] Hs; try contradiction; subst; vm_compute; reflexivity.
  - destruct (validateImage_supported platform spec width height fileSizeMB
                format Hs) as (r & Hr & _ & Hw & _).
    fold minRecommendedWidth in Hw.
    exists r. split; [exact Hr|].
    rewrite Hw, in_app_iff, In_when. split; [|tauto].
    intros [H|[H _]]; [|exact H].
    destruct (Js.find _ _); simpl in H; [destruct H|destruct H as [H|[]]].
    exfalso. revert H. differ_at "Image a".
  - destruct (validateVideo_supported platform spec width height
                durationSeconds fileSizeMB format Hs) as (r & Hr & _ & Hw & _).
    exists r. split; [exact Hr|].
    rewrite Hw, !in_app_iff, !In_when. split; [|tauto].
    intros [[H _]|[H|[[_ H]|[_ H]]]]; [exact H| | |].
    + destruct (Js.find _ _); simpl in H; [destruct H|destruct H as [H|[]]].
      exfalso. revert H. differ_at "Video a".
    + exfalso. revert H. differ_at "Video is l".
    + exfalso. revert H. differ_at "Video is l".
Qed.

End SizeWarnings.

Lemma media_size_warnings_witness :
  (exists r,
     validateImage (fmt := integralFormat) "instagram" 500 500 1 "JPG"
       = Js.Normal r /\
     In (smallWidthWarning (fmt := integralFormat) instagram 500 1080)
        (warnings r)) /\
  (exists r,
     validateVideo (fmt := integralFormat) "instagram" 500 500 2 1 "JPG"
       = Js.Normal r /\
     In (shortVideoWarning (fmt := integralFormat) 2) (warnings r)).
Proof.
  destruct (media_size_warnings (fmt := integralFormat) "instagram" instagram
              500 500 2 1 "JPG" eq_refl)
    as (_ & (r & Hr & Hi) & (r' & Hr' & Hv)).
  split.
  - exists r. split; [exact Hr|]. apply Hi. reflexivity.
  - exists r'. split; [exact Hr'|]. apply Hv. reflexivity.
Defined.
